(** * Editor configuration: option normalization and change propagation

    A shallow embedding of [vs/editor/common/config/commonEditorConfig.ts]:
    the primitive coercers, the option normalizer
    ([InternalEditorOptionsHelper.createInternalEditorOptions]), the two
    process-wide toggles ([TabFocus], [GlobalScreenReaderNVDA]) and the
    snapshot store ([CommonEditorConfiguration]). *)

From Stdlib Require Import ZArith Lia Bool Ascii.
From stdpp Require Import base tactics option list sorting gmap strings pretty.

Local Open Scope string_scope.
Local Open Scope Z_scope.
#[local] Set Warnings "-register-all".

(** ** JavaScript values

    Raw options are loosely typed ([any]).  A [value] is one of the values
    an option can hold.  Numbers of the embedding are the integral ones,
    [VNum z]; it is meant for [|z| < 10^21] with [z] a double, where
    [ToString] prints the decimal digits of [z].  Numbers with a fractional
    part only occur as results of the external operations on [number]
    below.  A string is a sequence of code units below 256.  Functions and
    plain objects are references; a function also carries its source text,
    which is what [ToString] returns for it. *)

Record func := Func { func_id : positive; func_source : string }.

Inductive value :=
| VUndefined
| VNull
| VBool (b : bool)
| VNum (n : Z)
| VStr (s : string)
| VArr (elems : list value)
| VFun (f : func)
| VObj (o : positive).

#[global] Instance func_eq_dec : EqDecision func.
Proof. solve_decision. Defined.

#[global] Instance value_eq_dec : EqDecision value.
Proof.
  unfold EqDecision, Decision. fix go 1. intros v w.
  destruct v as [| |b|n|s|l|f|o], w as [| |b'|n'|s'|l'|f'|o'];
    try (right; discriminate); try (left; reflexivity).
  - destruct (decide (b = b')); [left; congruence | right; congruence].
  - destruct (decide (n = n')); [left; congruence | right; congruence].
  - destruct (decide (s = s')); [left; congruence | right; congruence].
  - destruct (@list_eq_dec _ go l l'); [left; congruence | right; congruence].
  - destruct (decide (f = f')); [left; congruence | right; congruence].
  - destruct (decide (o = o')); [left; congruence | right; congruence].
Defined.

#[global] Instance value_inhabited : Inhabited value := populate VUndefined.

Module JS.

(** [Boolean(v)] *)
Definition truthy (v : value) : bool :=
  match v with
  | VUndefined | VNull => false
  | VBool b => b
  | VNum n => negb (n =? 0)
  | VStr s => negb (String.eqb s "")
  | VArr _ | VFun _ | VObj _ => true
  end.

(** [typeof v === 'undefined'], [typeof v === 'string'],
    [typeof v === 'function'], [Array.isArray(v)] *)
Definition is_undefined (v : value) : bool :=
  match v with VUndefined => true | _ => false end.
Definition is_string (v : value) : bool :=
  match v with VStr _ => true | _ => false end.
Definition is_function (v : value) : bool :=
  match v with VFun _ => true | _ => false end.
Definition isArray (v : value) : bool :=
  match v with VArr _ => true | _ => false end.

(** [v === true], [v === false], [v === 'literal'] *)
Definition is_bool (v : value) (b : bool) : bool :=
  match v with VBool b' => Bool.eqb b' b | _ => false end.
Definition is_str (v : value) (lit : string) : bool :=
  match v with VStr s => String.eqb s lit | _ => false end.

(** [a && b] *)
Definition and_ (a b : value) : value := if truthy a then b else a.

(** [Array.prototype.join(",")] on already printed elements *)
Fixpoint join (l : list string) : string :=
  match l with
  | [] => ""
  | [s] => s
  | s :: l' => s +:+ "," +:+ join l'
  end.

(** [String(v)] *)
Fixpoint ToString (v : value) : string :=
  match v with
  | VUndefined => "undefined"
  | VNull => "null"
  | VBool true => "true"
  | VBool false => "false"
  | VNum n => pretty n
  | VStr s => s
  | VArr elems =>
      join (map (fun e => match e with
                          | VUndefined | VNull => ""
                          | _ => ToString e
                          end) elems)
  | VFun f => func_source f
  | VObj _ => "[object Object]"
  end.

(** White space skipped by [parseInt]: TAB, LF, VT, FF, CR, SP, NBSP. *)
Definition is_white_space (c : Ascii.ascii) : bool :=
  let n := Z.of_N (Ascii.N_of_ascii c) in
  ((9 <=? n) && (n <=? 13)) || (n =? 32) || (n =? 160).

Fixpoint trim_left (s : string) : string :=
  match s with
  | String c s' => if is_white_space c then trim_left s' else s
  | EmptyString => s
  end.

Definition digit_of (c : Ascii.ascii) : option Z :=
  let n := Z.of_N (Ascii.N_of_ascii c) in
  if (48 <=? n) && (n <=? 57) then Some (n - 48) else None.

(** The value of the longest prefix of decimal digits; [acc] is [None]
    as long as no digit was read. *)
Fixpoint parse_digits (s : string) (acc : option Z) : option Z :=
  match s with
  | String c s' =>
      match digit_of c with
      | Some d => parse_digits s' (Some (10 * default 0 acc + d))
      | None => acc
      end
  | EmptyString => acc
  end.

(** The double nearest to a non-negative integer (53 bits of mantissa,
    ties to even).  Digits beyond the range of the doubles read as
    [Infinity]; here they stay finite and huge, which the clamping of
    [toInteger] by finite bounds does not tell apart. *)
Definition nearest_double_nonneg (m : Z) : Z :=
  if m <? 2 ^ 53 then m
  else
    let e := Z.log2 m - 52 in
    let q := Z.shiftr m e in
    let r := Z.land m (Z.ones e) in
    let half := Z.shiftl 1 (e - 1) in
    if (half <? r) || ((r =? half) && Z.odd q)
    then Z.shiftl (q + 1) e
    else Z.shiftl q e.

(** [parseInt(s, 10)] on a string; [None] is [NaN]. *)
Definition parseInt_string (s : string) : option Z :=
  let s := trim_left s in
  let '(sign, s) :=
    match s with
    | String "-"%char r => (-1, r)
    | String "+"%char r => (1, r)
    | _ => (1, s)
    end in
  (fun m => sign * nearest_double_nonneg m) <$> parse_digits s None.

(** [parseInt(v, 10)] *)
Definition parseInt (v : value) : option Z := parseInt_string (ToString v).

(** [r | 0]: the signed 32-bit integer congruent to [r] modulo 2^32 *)
Definition to_int32 (r : Z) : Z := (r + 2 ^ 31) mod 2 ^ 32 - 2 ^ 31.

End JS.

(** ** Primitive coercers *)

Definition toBoolean (v : value) : bool :=
  if JS.is_str v "false" then false else JS.truthy v.

Definition toBooleanWithDefault (v : value) (defaultValue : bool) : bool :=
  if JS.is_undefined v then defaultValue else toBoolean v.

(** [toInteger(source, minimum, maximum)] with both bounds given.  The
    bounds are integers, as at every call of the function. *)
Definition toInteger (source : value) (minimum maximum : Z) : Z :=
  let r := JS.parseInt source in
  let r := match r with Some r => r | None => 0 end in
  let r := Z.max minimum r in
  let r := Z.min maximum r in
  JS.to_int32 r.

(** [CommonEditorConfiguration.digitCount]: the [while (n)] loop, run for
    at most [fuel] tests of its condition. *)
Fixpoint digitCount_loop (fuel : nat) (n r : Z) : option Z :=
  match fuel with
  | O => None
  | S fuel' =>
      if n =? 0 then Some r else digitCount_loop fuel' (n / 10) (r + 1)
  end.

Definition digitCount (fuel : nat) (n : Z) : option Z :=
  r ← digitCount_loop fuel n 0;
  Some (if r =? 0 then 1 else r).

(** ** The raw options record

    [IEditorOptions]: a JavaScript object read by property name; a property
    that is absent reads as [undefined].  The two nested option groups are
    objects of their own, present in every merged record. *)

Record IEditorOptions := {
  props : gmap string value;
  scrollbar : gmap string value;
  minimap : gmap string value;
}.

Definition get (o : gmap string value) (name : string) : value := o !!! name.

Definition set_prop (name : string) (v : value) (opts : IEditorOptions) : IEditorOptions :=
  {| props := <[name := v]> (props opts);
     scrollbar := scrollbar opts;
     minimap := minimap opts |}.

Notation "o .[ name ]" := (get (props o) name)
  (at level 1, left associativity, format "o .[ name ]").

(** ** External collaborators

    What the file imports and uses without defining it: doubles that need
    not be integers and the operations the normalizer applies to them, the
    constants of [vs/editor/common/core/uint] and of [DefaultConfig], the
    font description [BareFontInfo] and the measured [FontInfo], and the
    layout calculator [EditorLayoutProvider.compute] with its result
    [EditorLayoutInfo].  They are parameters of the development. *)

Inductive ScrollbarVisibility := Auto | Hidden | Visible.
Inductive WrappingIndent := WrappingIndent_None | WrappingIndent_Same | WrappingIndent_Indent.
Inductive TextEditorCursorStyle :=
  Line | Block | Underline | LineThin | BlockOutline | UnderlineThin.
Inductive TextEditorCursorBlinkingStyle := Blink | Smooth | Phase | Expand | Solid.

(** The argument object of [EditorLayoutProvider.compute]. *)
Module IEditorLayoutProviderOpts.
Record t {number : Type} := mk {
  outerWidth : number;
  outerHeight : number;
  showGlyphMargin : bool;
  lineHeight : number;
  showLineNumbers : bool;
  lineNumbersMinChars : Z;
  lineNumbersDigitCount : Z;
  lineDecorationsWidth : number;
  typicalHalfwidthCharacterWidth : number;
  maxDigitWidth : number;
  verticalScrollbarWidth : Z;
  horizontalScrollbarHeight : Z;
  scrollbarArrowSize : Z;
  verticalScrollbarHasArrows : bool;
  minimap : bool;
  minimapRenderCharacters : bool;
  minimapMaxColumn : Z;
  pixelRatio : number;
}.
Arguments t : clear implicits.
End IEditorLayoutProviderOpts.

Class External := {
  (** doubles *)
  number : Type;
  number_eq_dec :: EqDecision number;
  number_of_int : Z → number;
  number_mul : number → number → number;
  number_add : number → number → number;
  parseFloat : string → number;
  isNaN : number → bool;
  (** [Constants.MIN_SAFE_SMALL_INTEGER], [Constants.MAX_SAFE_SMALL_INTEGER] *)
  MIN_SAFE_SMALL_INTEGER : Z;
  MAX_SAFE_SMALL_INTEGER : Z;
  (** [DefaultConfig.editor.minimap] *)
  DefaultConfig_minimap_enabled : bool;
  DefaultConfig_minimap_renderCharacters : bool;
  DefaultConfig_minimap_maxColumn : Z;
  (** [BareFontInfo.createFromRawSettings] *)
  BareFontInfo : Type;
  BareFontInfo_createFromRawSettings : IEditorOptions → BareFontInfo;
  (** [FontInfo] and the three metrics read from it *)
  FontInfo : Type;
  FontInfo_eq_dec :: EqDecision FontInfo;
  fontInfo_lineHeight : FontInfo → number;
  fontInfo_typicalHalfwidthCharacterWidth : FontInfo → number;
  fontInfo_maxDigitWidth : FontInfo → number;
  (** [EditorLayoutInfo], its viewport column (a number of characters) and
      the calculator *)
  EditorLayoutInfo : Type;
  EditorLayoutInfo_eq_dec :: EqDecision EditorLayoutInfo;
  viewportColumn : EditorLayoutInfo → Z;
  EditorLayoutProvider_compute : IEditorLayoutProviderOpts.t number → EditorLayoutInfo;
}.

(** ** The snapshot: [InternalEditorOptions] and its groups

    The fields are those the constructor calls of
    [createInternalEditorOptions] pass. *)

Module InternalEditorScrollbarOptions.
Record t `{External} := mk {
  vertical : ScrollbarVisibility;
  horizontal : ScrollbarVisibility;
  arrowSize : Z;
  useShadows : bool;
  verticalHasArrows : bool;
  horizontalHasArrows : bool;
  horizontalScrollbarSize : Z;
  horizontalSliderSize : Z;
  verticalScrollbarSize : Z;
  verticalSliderSize : Z;
  handleMouseWheel : bool;
  mouseWheelScrollSensitivity : number;
}.
End InternalEditorScrollbarOptions.

Module InternalEditorMinimapOptions.
Record t := mk {
  enabled : bool;
  renderCharacters : bool;
  maxColumn : Z;
}.
End InternalEditorMinimapOptions.

Module EditorWrappingInfo.
Record t := mk {
  isViewportWrapping : bool;
  wrappingColumn : Z;
  wrappingIndent : WrappingIndent;
  wordWrapBreakBeforeCharacters : string;
  wordWrapBreakAfterCharacters : string;
  wordWrapBreakObtrusiveCharacters : string;
}.
End EditorWrappingInfo.

Module InternalEditorViewOptions.
Record t `{External} := mk {
  theme : value;
  canUseTranslate3d : bool;
  disableMonospaceOptimizations : bool;
  experimentalScreenReader : bool;
  rulers : list Z;
  ariaLabel : string;
  renderLineNumbers : bool;
  renderCustomLineNumbers : option func;
  renderRelativeLineNumbers : bool;
  selectOnLineNumbers : bool;
  glyphMargin : bool;
  revealHorizontalRightPadding : Z;
  roundedSelection : bool;
  overviewRulerLanes : Z;
  cursorBlinking : TextEditorCursorBlinkingStyle;
  mouseWheelZoom : bool;
  cursorStyle : TextEditorCursorStyle;
  hideCursorInOverviewRuler : bool;
  scrollBeyondLastLine : bool;
  editorClassName : string;
  stopRenderingLineAfter : Z;
  renderWhitespace : value;
  renderControlCharacters : bool;
  renderIndentGuides : bool;
  renderLineHighlight : value;
  scrollbar : InternalEditorScrollbarOptions.t;
  minimap : InternalEditorMinimapOptions.t;
  fixedOverflowWidgets : bool;
}.
End InternalEditorViewOptions.

Module EditorContribOptions.
Record t := mk {
  selectionClipboard : bool;
  hover : bool;
  contextmenu : bool;
  quickSuggestions : bool;
  quickSuggestionsDelay : Z;
  parameterHints : bool;
  iconsInSuggestions : bool;
  formatOnType : bool;
  formatOnPaste : bool;
  suggestOnTriggerCharacters : bool;
  acceptSuggestionOnEnter : bool;
  acceptSuggestionOnCommitCharacter : bool;
  snippetSuggestions : value;
  emptySelectionClipboard : value;
  wordBasedSuggestions : value;
  suggestFontSize : value;
  suggestLineHeight : value;
  selectionHighlight : bool;
  codeLens : value;
  folding : bool;
  matchBrackets : bool;
}.
End EditorContribOptions.

Module InternalEditorOptions.
Record t `{External} := mk {
  lineHeight : number;
  readOnly : bool;
  wordSeparators : string;
  autoClosingBrackets : bool;
  useTabStops : bool;
  tabFocusMode : bool;
  dragAndDrop : bool;
  layoutInfo : EditorLayoutInfo;
  fontInfo : FontInfo;
  viewInfo : InternalEditorViewOptions.t;
  wrappingInfo : EditorWrappingInfo.t;
  contribInfo : EditorContribOptions.t;
}.
End InternalEditorOptions.

(** ** Process-wide shared toggles *)

(** [Emitter] of [vs/base/common/event] is not part of the sources at
    hand. *)
Module Emitter.
Definition listener := positive.

(** Modelled from the spec: the state of an [Emitter], its current
    subscribers in subscription order. *)
Record t := mk { listeners : list listener }.

(** A delivery is the subscriber notified and the value it received. *)
Definition delivery (A : Type) : Type := listener * A.

(** Modelled from the spec: [Emitter.event], the subscription of a
    listener, which joins the current subscribers as the last one. *)
Definition event (l : listener) (e : t) : t := mk (listeners e ++ [l]).

(** Modelled from the spec: [Emitter.fire], which synchronously notifies
    all current subscribers, in subscription order, with the value
    fired. *)
Definition fire {A} (e : t) (a : A) : list (delivery A) :=
  map (fun l => (l, a)) (listeners e).
End Emitter.

Module TabFocus.
Record t := mk {
  _tabFocus : bool;
  _onDidChangeTabFocus : Emitter.t;
}.
Definition initial : t := mk false (Emitter.mk []).
Definition onDidChangeTabFocus (l : Emitter.listener) (s : t) : t :=
  mk (_tabFocus s) (Emitter.event l (_onDidChangeTabFocus s)).
Definition getTabFocusMode (s : t) : bool := _tabFocus s.
Definition setTabFocusMode (tabFocusMode : bool) (s : t)
  : t * list (Emitter.delivery bool) :=
  if Bool.eqb (_tabFocus s) tabFocusMode then (s, [])
  else
    let s' := mk tabFocusMode (_onDidChangeTabFocus s) in
    (s', Emitter.fire (_onDidChangeTabFocus s') (_tabFocus s')).
End TabFocus.

Module GlobalScreenReaderNVDA.
Record t := mk {
  _value : bool;
  _onChange : Emitter.t;
}.
Definition initial : t := mk false (Emitter.mk []).
Definition onChange (l : Emitter.listener) (s : t) : t :=
  mk (_value s) (Emitter.event l (_onChange s)).
Definition getValue (s : t) : bool := _value s.
Definition setValue (value : bool) (s : t)
  : t * list (Emitter.delivery bool) :=
  if Bool.eqb (_value s) value then (s, [])
  else
    let s' := mk value (_onChange s) in
    (s', Emitter.fire (_onChange s') (_value s')).
End GlobalScreenReaderNVDA.

(** The process-wide state a normalization pass runs in. *)
Record World := {
  world_TabFocus : TabFocus.t;
  world_GlobalScreenReaderNVDA : GlobalScreenReaderNVDA.t;
}.

(** Computations that run in the process-wide state. *)
Definition Proc (A : Type) : Type := World → A * World.
Definition Proc_ret {A} (a : A) : Proc A := fun w => (a, w).
Definition Proc_bind {A B} (m : Proc A) (k : A → Proc B) : Proc B :=
  fun w => let '(a, w') := m w in k a w'.
Notation "'do' x <- m ; k" := (Proc_bind m (fun x => k))
  (at level 10, x name, m at level 100, k at level 200).

(** [TabFocus.getTabFocusMode()] called on the singleton *)
Definition TabFocus_getTabFocusMode : Proc bool :=
  fun w => (TabFocus.getTabFocusMode (world_TabFocus w), w).

(** [TabFocus.onDidChangeTabFocus(listener)] called on the singleton *)
Definition TabFocus_onDidChangeTabFocus (l : Emitter.listener) : Proc unit :=
  fun w =>
    (tt, {| world_TabFocus := TabFocus.onDidChangeTabFocus l (world_TabFocus w);
            world_GlobalScreenReaderNVDA := world_GlobalScreenReaderNVDA w |}).

(** ** Coercers that depend on the external constants *)

Section Coercers.
Context `{External}.

Definition toFloat (source : value) (defaultValue : number) : number :=
  let r := parseFloat (JS.ToString source) in
  if isNaN r then defaultValue else r.

(** [toInteger(source)]: both bounds defaulted *)
Definition toInteger_1 (source : value) : Z :=
  toInteger source MIN_SAFE_SMALL_INTEGER MAX_SAFE_SMALL_INTEGER.

(** [toInteger(source, minimum)]: the upper bound defaulted *)
Definition toInteger_2 (source : value) (minimum : Z) : Z :=
  toInteger source minimum MAX_SAFE_SMALL_INTEGER.

Definition toIntegerWithDefault (source : value) (defaultValue : Z) : Z :=
  if JS.is_undefined source then defaultValue else toInteger_1 source.

(** The order of [Array.prototype.sort] without a comparison function:
    the elements are compared as strings, by code units. *)
Definition sort_le (x y : Z) : Prop :=
  String.leb (JS.ToString (VNum x)) (JS.ToString (VNum y)) = true.

#[global] Instance sort_le_dec x y : Decision (sort_le x y).
Proof. unfold sort_le. apply _. Defined.

(** [r.sort()].  Distinct 32-bit integers have distinct renderings, so the
    sorted array does not depend on the sorting algorithm. *)
Definition Array_sort (r : list Z) : list Z := merge_sort sort_le r.

Definition toSortedIntegerArray (source : value) : list Z :=
  match source with
  | VArr arrSource =>
      let r := map (fun el => toInteger_1 el) arrSource in
      Array_sort r
  | _ => []
  end.

End Coercers.

Definition wrappingIndentFromString (wrappingIndent : value) : WrappingIndent :=
  if JS.is_str wrappingIndent "indent" then WrappingIndent_Indent
  else if JS.is_str wrappingIndent "same" then WrappingIndent_Same
  else WrappingIndent_None.

Definition cursorStyleFromString (cursorStyle : value) : TextEditorCursorStyle :=
  if JS.is_str cursorStyle "line" then Line
  else if JS.is_str cursorStyle "block" then Block
  else if JS.is_str cursorStyle "underline" then Underline
  else if JS.is_str cursorStyle "line-thin" then LineThin
  else if JS.is_str cursorStyle "block-outline" then BlockOutline
  else if JS.is_str cursorStyle "underline-thin" then UnderlineThin
  else Line.

Definition cursorBlinkingStyleFromString (cursorBlinkingStyle : value)
  : TextEditorCursorBlinkingStyle :=
  if JS.is_str cursorBlinkingStyle "blink" then Blink
  else if JS.is_str cursorBlinkingStyle "smooth" then Smooth
  else if JS.is_str cursorBlinkingStyle "phase" then Phase
  else if JS.is_str cursorBlinkingStyle "expand" then Expand
  else if JS.is_str cursorBlinkingStyle "visible" then Solid
  else if JS.is_str cursorBlinkingStyle "solid" then Solid
  else Blink.

(** The test [/^\d+(\.\d+)?ch$/] of the line-decoration width. *)
Module ChWidth.
Definition is_digit (c : Ascii.ascii) : bool :=
  match JS.digit_of c with Some _ => true | None => false end.
Fixpoint skip_digits (s : string) : string :=
  match s with
  | String c s' => if is_digit c then skip_digits s' else s
  | EmptyString => s
  end.
Definition starts_with_digit (s : string) : bool :=
  match s with String c _ => is_digit c | EmptyString => false end.
Definition test (s : string) : bool :=
  starts_with_digit s &&
  (let r := skip_digits s in
   String.eqb r "ch" ||
   match r with
   | String "."%char r' =>
       starts_with_digit r' && String.eqb (skip_digits r') "ch"
   | _ => false
   end).
(** [s.substr(0, s.length - 2)] *)
Definition without_unit (s : string) : string :=
  String.substring 0 (String.length s - 2) s.
End ChWidth.

(** ** The option normalizer *)

Module InternalEditorOptionsHelper.
Section Helper.
Context `{External}.

Definition visibilityFromString (visibility : value) : ScrollbarVisibility :=
  if JS.is_str visibility "hidden" then Hidden
  else if JS.is_str visibility "visible" then Visible
  else Auto.

Definition _sanitizeScrollbarOpts (raw : gmap string value)
    (mouseWheelScrollSensitivity : number) : InternalEditorScrollbarOptions.t :=
  let horizontalScrollbarSize := toIntegerWithDefault (get raw "horizontalScrollbarSize") 10 in
  let verticalScrollbarSize := toIntegerWithDefault (get raw "verticalScrollbarSize") 14 in
  {| InternalEditorScrollbarOptions.vertical := visibilityFromString (get raw "vertical");
     InternalEditorScrollbarOptions.horizontal := visibilityFromString (get raw "horizontal");
     InternalEditorScrollbarOptions.arrowSize := toIntegerWithDefault (get raw "arrowSize") 11;
     InternalEditorScrollbarOptions.useShadows := toBooleanWithDefault (get raw "useShadows") true;
     InternalEditorScrollbarOptions.verticalHasArrows :=
       toBooleanWithDefault (get raw "verticalHasArrows") false;
     InternalEditorScrollbarOptions.horizontalHasArrows :=
       toBooleanWithDefault (get raw "horizontalHasArrows") false;
     InternalEditorScrollbarOptions.horizontalScrollbarSize := horizontalScrollbarSize;
     InternalEditorScrollbarOptions.horizontalSliderSize :=
       toIntegerWithDefault (get raw "horizontalSliderSize") horizontalScrollbarSize;
     InternalEditorScrollbarOptions.verticalScrollbarSize := verticalScrollbarSize;
     InternalEditorScrollbarOptions.verticalSliderSize :=
       toIntegerWithDefault (get raw "verticalSliderSize") verticalScrollbarSize;
     InternalEditorScrollbarOptions.handleMouseWheel :=
       toBooleanWithDefault (get raw "handleMouseWheel") true;
     InternalEditorScrollbarOptions.mouseWheelScrollSensitivity := mouseWheelScrollSensitivity |}.

Definition _sanitizeMinimapOpts (raw : gmap string value) : InternalEditorMinimapOptions.t :=
  let maxColumn := toIntegerWithDefault (get raw "maxColumn") DefaultConfig_minimap_maxColumn in
  let maxColumn := if maxColumn <? 1 then 1 else maxColumn in
  {| InternalEditorMinimapOptions.enabled :=
       toBooleanWithDefault (get raw "enabled") DefaultConfig_minimap_enabled;
     InternalEditorMinimapOptions.renderCharacters :=
       toBooleanWithDefault (get raw "renderCharacters") DefaultConfig_minimap_renderCharacters;
     InternalEditorMinimapOptions.maxColumn := maxColumn |}.

(** Lines 141-170: [renderLineNumbers], [renderCustomLineNumbers] and
    [renderRelativeLineNumbers]. *)
Definition lineNumbersInfo (opts : IEditorOptions) : bool * option func * bool :=
  let lineNumbers := opts.["lineNumbers"] in
  (* Compatibility with old true or false values *)
  let lineNumbers :=
    if JS.is_bool lineNumbers true then VStr "on"
    else if JS.is_bool lineNumbers false then VStr "off"
    else lineNumbers in
  match lineNumbers with
  | VFun f => (true, Some f, false)
  | _ =>
      if JS.is_str lineNumbers "relative" then (true, None, true)
      else if JS.is_str lineNumbers "on" then (true, None, false)
      else (false, None, false)
  end.

(** Lines 193-232: [bareWrappingInfo], the pair of [isViewportWrapping]
    and [wrappingColumn]. *)
Definition bareWrappingInfo (opts : IEditorOptions) (isDominatedByLongLines : bool)
    (layoutInfo : EditorLayoutInfo) : bool * Z :=
  let wordWrap := opts.["wordWrap"] in
  let wordWrapColumn := toInteger_2 opts.["wordWrapColumn"] 1 in
  (* Compatibility with old true or false values *)
  let wordWrap :=
    if JS.is_bool wordWrap true then VStr "on"
    else if JS.is_bool wordWrap false then VStr "off"
    else wordWrap in
  if isDominatedByLongLines then
    (* Force viewport width wrapping if model is dominated by long lines *)
    (true, Z.max 1 (viewportColumn layoutInfo))
  else if JS.is_str wordWrap "on" then
    (true, Z.max 1 (viewportColumn layoutInfo))
  else if JS.is_str wordWrap "bounded" then
    (true, Z.min (Z.max 1 (viewportColumn layoutInfo)) wordWrapColumn)
  else if JS.is_str wordWrap "wordWrapColumn" then
    (false, wordWrapColumn)
  else
    (false, -1).

(** Lines 130-139: [lineDecorationsWidth]. *)
Definition lineDecorationsWidth (opts : IEditorOptions) (fontInfo : FontInfo) : number :=
  let lineDecorationsWidth :=
    if JS.is_string opts.["lineDecorationsWidth"]
       && ChWidth.test (JS.ToString opts.["lineDecorationsWidth"])
    then
      let multiple :=
        parseFloat (ChWidth.without_unit (JS.ToString opts.["lineDecorationsWidth"])) in
      number_mul multiple (fontInfo_typicalHalfwidthCharacterWidth fontInfo)
    else number_of_int (toInteger_2 opts.["lineDecorationsWidth"] 0) in
  if JS.truthy opts.["folding"]
  then number_add lineDecorationsWidth (number_of_int 16)
  else lineDecorationsWidth.

Definition createInternalEditorOptions
    (outerWidth outerHeight : number)
    (opts : IEditorOptions)
    (fontInfo : FontInfo)
    (editorClassName : string)
    (isDominatedByLongLines : bool)
    (lineNumbersDigitCount : Z)
    (canUseTranslate3d : bool)
    (pixelRatio : number) : Proc InternalEditorOptions.t :=
  let stopRenderingLineAfter :=
    if negb (JS.is_undefined opts.["stopRenderingLineAfter"])
    then toInteger_2 opts.["stopRenderingLineAfter"] (-1)
    else 10000 in
  let scrollbar :=
    _sanitizeScrollbarOpts (scrollbar opts)
      (toFloat opts.["mouseWheelScrollSensitivity"] (number_of_int 1)) in
  let minimap := _sanitizeMinimapOpts (minimap opts) in
  let glyphMargin := toBoolean opts.["glyphMargin"] in
  let lineNumbersMinChars := toInteger_2 opts.["lineNumbersMinChars"] 1 in
  let lineDecorationsWidth := lineDecorationsWidth opts fontInfo in
  let '(renderLineNumbers, renderCustomLineNumbers, renderRelativeLineNumbers) :=
    lineNumbersInfo opts in
  let layoutInfo := EditorLayoutProvider_compute
    {| IEditorLayoutProviderOpts.outerWidth := outerWidth;
       IEditorLayoutProviderOpts.outerHeight := outerHeight;
       IEditorLayoutProviderOpts.showGlyphMargin := glyphMargin;
       IEditorLayoutProviderOpts.lineHeight := fontInfo_lineHeight fontInfo;
       IEditorLayoutProviderOpts.showLineNumbers := renderLineNumbers;
       IEditorLayoutProviderOpts.lineNumbersMinChars := lineNumbersMinChars;
       IEditorLayoutProviderOpts.lineNumbersDigitCount := lineNumbersDigitCount;
       IEditorLayoutProviderOpts.lineDecorationsWidth := lineDecorationsWidth;
       IEditorLayoutProviderOpts.typicalHalfwidthCharacterWidth :=
         fontInfo_typicalHalfwidthCharacterWidth fontInfo;
       IEditorLayoutProviderOpts.maxDigitWidth := fontInfo_maxDigitWidth fontInfo;
       IEditorLayoutProviderOpts.verticalScrollbarWidth :=
         InternalEditorScrollbarOptions.verticalScrollbarSize scrollbar;
       IEditorLayoutProviderOpts.horizontalScrollbarHeight :=
         InternalEditorScrollbarOptions.horizontalScrollbarSize scrollbar;
       IEditorLayoutProviderOpts.scrollbarArrowSize :=
         InternalEditorScrollbarOptions.arrowSize scrollbar;
       IEditorLayoutProviderOpts.verticalScrollbarHasArrows :=
         InternalEditorScrollbarOptions.verticalHasArrows scrollbar;
       IEditorLayoutProviderOpts.minimap := InternalEditorMinimapOptions.enabled minimap;
       IEditorLayoutProviderOpts.minimapRenderCharacters :=
         InternalEditorMinimapOptions.renderCharacters minimap;
       IEditorLayoutProviderOpts.minimapMaxColumn :=
         InternalEditorMinimapOptions.maxColumn minimap;
       IEditorLayoutProviderOpts.pixelRatio := pixelRatio |} in
  let bareWrappingInfo := bareWrappingInfo opts isDominatedByLongLines layoutInfo in
  let wrappingInfo :=
    {| EditorWrappingInfo.isViewportWrapping := fst bareWrappingInfo;
       EditorWrappingInfo.wrappingColumn := snd bareWrappingInfo;
       EditorWrappingInfo.wrappingIndent := wrappingIndentFromString opts.["wrappingIndent"];
       EditorWrappingInfo.wordWrapBreakBeforeCharacters :=
         JS.ToString opts.["wordWrapBreakBeforeCharacters"];
       EditorWrappingInfo.wordWrapBreakAfterCharacters :=
         JS.ToString opts.["wordWrapBreakAfterCharacters"];
       EditorWrappingInfo.wordWrapBreakObtrusiveCharacters :=
         JS.ToString opts.["wordWrapBreakObtrusiveCharacters"] |} in
  let readOnly := toBoolean opts.["readOnly"] in
  do tabFocusMode <- TabFocus_getTabFocusMode;
  let tabFocusMode := if readOnly then true else tabFocusMode in
  let renderWhitespace := opts.["renderWhitespace"] in
  (* Compatibility with old true or false values *)
  let renderWhitespace :=
    if JS.is_bool renderWhitespace true then VStr "boundary"
    else if JS.is_bool renderWhitespace false then VStr "none"
    else renderWhitespace in
  let renderLineHighlight := opts.["renderLineHighlight"] in
  (* Compatibility with old true or false values *)
  let renderLineHighlight :=
    if JS.is_bool renderLineHighlight true then VStr "line"
    else if JS.is_bool renderLineHighlight false then VStr "none"
    else renderLineHighlight in
  let viewInfo :=
    {| InternalEditorViewOptions.theme := opts.["theme"];
       InternalEditorViewOptions.canUseTranslate3d := canUseTranslate3d;
       InternalEditorViewOptions.disableMonospaceOptimizations :=
         toBoolean opts.["disableMonospaceOptimizations"] || toBoolean opts.["fontLigatures"];
       InternalEditorViewOptions.experimentalScreenReader :=
         toBoolean opts.["experimentalScreenReader"];
       InternalEditorViewOptions.rulers := toSortedIntegerArray opts.["rulers"];
       InternalEditorViewOptions.ariaLabel := JS.ToString opts.["ariaLabel"];
       InternalEditorViewOptions.renderLineNumbers := renderLineNumbers;
       InternalEditorViewOptions.renderCustomLineNumbers := renderCustomLineNumbers;
       InternalEditorViewOptions.renderRelativeLineNumbers := renderRelativeLineNumbers;
       InternalEditorViewOptions.selectOnLineNumbers := toBoolean opts.["selectOnLineNumbers"];
       InternalEditorViewOptions.glyphMargin := glyphMargin;
       InternalEditorViewOptions.revealHorizontalRightPadding :=
         toInteger_2 opts.["revealHorizontalRightPadding"] 0;
       InternalEditorViewOptions.roundedSelection := toBoolean opts.["roundedSelection"];
       InternalEditorViewOptions.overviewRulerLanes := toInteger opts.["overviewRulerLanes"] 0 3;
       InternalEditorViewOptions.cursorBlinking :=
         cursorBlinkingStyleFromString opts.["cursorBlinking"];
       InternalEditorViewOptions.mouseWheelZoom := toBoolean opts.["mouseWheelZoom"];
       InternalEditorViewOptions.cursorStyle := cursorStyleFromString opts.["cursorStyle"];
       InternalEditorViewOptions.hideCursorInOverviewRuler :=
         toBoolean opts.["hideCursorInOverviewRuler"];
       InternalEditorViewOptions.scrollBeyondLastLine := toBoolean opts.["scrollBeyondLastLine"];
       InternalEditorViewOptions.editorClassName := editorClassName;
       InternalEditorViewOptions.stopRenderingLineAfter := stopRenderingLineAfter;
       InternalEditorViewOptions.renderWhitespace := renderWhitespace;
       InternalEditorViewOptions.renderControlCharacters :=
         toBoolean opts.["renderControlCharacters"];
       InternalEditorViewOptions.renderIndentGuides := toBoolean opts.["renderIndentGuides"];
       InternalEditorViewOptions.renderLineHighlight := renderLineHighlight;
       InternalEditorViewOptions.scrollbar := scrollbar;
       InternalEditorViewOptions.minimap := minimap;
       InternalEditorViewOptions.fixedOverflowWidgets := toBoolean opts.["fixedOverflowWidgets"] |} in
  let contribInfo :=
    {| EditorContribOptions.selectionClipboard := toBoolean opts.["selectionClipboard"];
       EditorContribOptions.hover := toBoolean opts.["hover"];
       EditorContribOptions.contextmenu := toBoolean opts.["contextmenu"];
       EditorContribOptions.quickSuggestions := toBoolean opts.["quickSuggestions"];
       EditorContribOptions.quickSuggestionsDelay := toInteger_1 opts.["quickSuggestionsDelay"];
       EditorContribOptions.parameterHints := toBoolean opts.["parameterHints"];
       EditorContribOptions.iconsInSuggestions := toBoolean opts.["iconsInSuggestions"];
       EditorContribOptions.formatOnType := toBoolean opts.["formatOnType"];
       EditorContribOptions.formatOnPaste := toBoolean opts.["formatOnPaste"];
       EditorContribOptions.suggestOnTriggerCharacters :=
         toBoolean opts.["suggestOnTriggerCharacters"];
       EditorContribOptions.acceptSuggestionOnEnter := toBoolean opts.["acceptSuggestionOnEnter"];
       EditorContribOptions.acceptSuggestionOnCommitCharacter :=
         toBoolean opts.["acceptSuggestionOnCommitCharacter"];
       EditorContribOptions.snippetSuggestions := opts.["snippetSuggestions"];
       EditorContribOptions.emptySelectionClipboard := opts.["emptySelectionClipboard"];
       EditorContribOptions.wordBasedSuggestions := opts.["wordBasedSuggestions"];
       EditorContribOptions.suggestFontSize := opts.["suggestFontSize"];
       EditorContribOptions.suggestLineHeight := opts.["suggestLineHeight"];
       EditorContribOptions.selectionHighlight := toBoolean opts.["selectionHighlight"];
       EditorContribOptions.codeLens := JS.and_ opts.["referenceInfos"] opts.["codeLens"];
       EditorContribOptions.folding := toBoolean opts.["folding"];
       EditorContribOptions.matchBrackets := toBoolean opts.["matchBrackets"] |} in
  Proc_ret
    {| InternalEditorOptions.lineHeight := fontInfo_lineHeight fontInfo;
       InternalEditorOptions.readOnly := readOnly;
       InternalEditorOptions.wordSeparators := JS.ToString opts.["wordSeparators"];
       InternalEditorOptions.autoClosingBrackets := toBoolean opts.["autoClosingBrackets"];
       InternalEditorOptions.useTabStops := toBoolean opts.["useTabStops"];
       InternalEditorOptions.tabFocusMode := tabFocusMode;
       InternalEditorOptions.dragAndDrop := toBoolean opts.["dragAndDrop"];
       InternalEditorOptions.layoutInfo := layoutInfo;
       InternalEditorOptions.fontInfo := fontInfo;
       InternalEditorOptions.viewInfo := viewInfo;
       InternalEditorOptions.wrappingInfo := wrappingInfo;
       InternalEditorOptions.contribInfo := contribInfo |}.

End Helper.
End InternalEditorOptionsHelper.

(** ** Equality and change events of snapshots *)

#[global] Instance ScrollbarVisibility_eq_dec : EqDecision ScrollbarVisibility.
Proof. solve_decision. Defined.
#[global] Instance WrappingIndent_eq_dec : EqDecision WrappingIndent.
Proof. solve_decision. Defined.
#[global] Instance TextEditorCursorStyle_eq_dec : EqDecision TextEditorCursorStyle.
Proof. solve_decision. Defined.
#[global] Instance TextEditorCursorBlinkingStyle_eq_dec :
  EqDecision TextEditorCursorBlinkingStyle.
Proof. solve_decision. Defined.
#[global] Instance InternalEditorScrollbarOptions_eq_dec `{External} :
  EqDecision InternalEditorScrollbarOptions.t.
Proof. solve_decision. Defined.
#[global] Instance InternalEditorMinimapOptions_eq_dec :
  EqDecision InternalEditorMinimapOptions.t.
Proof. solve_decision. Defined.
#[global] Instance EditorWrappingInfo_eq_dec : EqDecision EditorWrappingInfo.t.
Proof. solve_decision. Defined.
#[global] Instance InternalEditorViewOptions_eq_dec `{External} :
  EqDecision InternalEditorViewOptions.t.
Proof. solve_decision. Defined.
#[global] Instance EditorContribOptions_eq_dec : EqDecision EditorContribOptions.t.
Proof. solve_decision. Defined.
#[global] Instance InternalEditorOptions_eq_dec `{External} :
  EqDecision InternalEditorOptions.t.
Proof. solve_decision. Defined.

(** [IConfigurationChangedEvent]: one flag per top-level field or group of
    the snapshot. *)
Module IConfigurationChangedEvent.
Record t := mk {
  lineHeight : bool;
  readOnly : bool;
  wordSeparators : bool;
  autoClosingBrackets : bool;
  useTabStops : bool;
  tabFocusMode : bool;
  dragAndDrop : bool;
  layoutInfo : bool;
  fontInfo : bool;
  viewInfo : bool;
  wrappingInfo : bool;
  contribInfo : bool;
}.
End IConfigurationChangedEvent.

Section SnapshotMethods.
Context `{External}.

(** Modelled from the spec: [InternalEditorOptions.equals] of
    [vs/editor/common/editorCommon], which is not part of the sources at
    hand.  It is the exact structural equality of two snapshots. *)
Definition equals (a b : InternalEditorOptions.t) : bool := bool_decide (a = b).

(** Modelled from the spec: [InternalEditorOptions.clone] of
    [vs/editor/common/editorCommon], which is not part of the sources at
    hand.  A clone is a snapshot with the same fields. *)
Definition clone (a : InternalEditorOptions.t) : InternalEditorOptions.t := a.

(** Modelled from the spec: [InternalEditorOptions.createChangeEvent] of
    [vs/editor/common/editorCommon], which is not part of the sources at
    hand.  The change-delta maps each top-level field or group to whether
    it differs between the two snapshots, by structural comparison. *)
Definition createChangeEvent (a newOpts : InternalEditorOptions.t)
    : IConfigurationChangedEvent.t :=
  let differs {A} `{EqDecision A} (f : InternalEditorOptions.t → A) : bool :=
    bool_decide (f a ≠ f newOpts) in
  {| IConfigurationChangedEvent.lineHeight := differs InternalEditorOptions.lineHeight;
     IConfigurationChangedEvent.readOnly := differs InternalEditorOptions.readOnly;
     IConfigurationChangedEvent.wordSeparators := differs InternalEditorOptions.wordSeparators;
     IConfigurationChangedEvent.autoClosingBrackets :=
       differs InternalEditorOptions.autoClosingBrackets;
     IConfigurationChangedEvent.useTabStops := differs InternalEditorOptions.useTabStops;
     IConfigurationChangedEvent.tabFocusMode := differs InternalEditorOptions.tabFocusMode;
     IConfigurationChangedEvent.dragAndDrop := differs InternalEditorOptions.dragAndDrop;
     IConfigurationChangedEvent.layoutInfo := differs InternalEditorOptions.layoutInfo;
     IConfigurationChangedEvent.fontInfo := differs InternalEditorOptions.fontInfo;
     IConfigurationChangedEvent.viewInfo := differs InternalEditorOptions.viewInfo;
     IConfigurationChangedEvent.wrappingInfo := differs InternalEditorOptions.wrappingInfo;
     IConfigurationChangedEvent.contribInfo := differs InternalEditorOptions.contribInfo |}.

End SnapshotMethods.

(** ** The snapshot store: [CommonEditorConfiguration] *)

(** The abstract methods of [CommonEditorConfiguration], as the host
    surface answers them at the time of a recomputation. *)
Module Host.
Record t `{External} := mk {
  _getEditorClassName : value → bool → string;
  getOuterWidth : number;
  getOuterHeight : number;
  _getCanUseTranslate3d : bool;
  _getPixelRatio : number;
  readConfiguration : BareFontInfo → FontInfo;
}.
End Host.

Module CommonEditorConfiguration.
Section Store.
Context `{External}.

Record t := mk {
  editor : InternalEditorOptions.t;
  editorClone : InternalEditorOptions.t;
  _configWithDefaults : IEditorOptions;
  _isDominatedByLongLines : bool;
  _lineNumbersDigitCount : Z;
}.

(** What a call on the store does that its caller can observe: a
    normalization pass run by [_recomputeOptions] (it queries the host),
    and a change event fired on [_onDidChange]. *)
Inductive effect :=
| Recomputed (newOptions : InternalEditorOptions.t)
| DidChange (changeEvent : IConfigurationChangedEvent.t).

Definition _computeInternalOptions (h : Host.t) (_configWithDefaults : IEditorOptions)
    (_isDominatedByLongLines : bool) (_lineNumbersDigitCount : Z)
    : Proc InternalEditorOptions.t :=
  let opts := _configWithDefaults in
  let editorClassName :=
    Host._getEditorClassName h opts.["theme"] (toBoolean opts.["fontLigatures"]) in
  let disableTranslate3d := toBoolean opts.["disableTranslate3d"] in
  let canUseTranslate3d := Host._getCanUseTranslate3d h in
  let canUseTranslate3d := if disableTranslate3d then false else canUseTranslate3d in
  let bareFontInfo := BareFontInfo_createFromRawSettings opts in
  InternalEditorOptionsHelper.createInternalEditorOptions
    (Host.getOuterWidth h)
    (Host.getOuterHeight h)
    opts
    (Host.readConfiguration h bareFontInfo)
    editorClassName
    _isDominatedByLongLines
    _lineNumbersDigitCount
    canUseTranslate3d
    (Host._getPixelRatio h).

(** The constructor; [options] is the record already merged with the
    defaults, [self] the listener the new store registers on the
    tab-focus toggle (its callback is [_recomputeOptions]).  The zoom
    level stream it also registers on is outside the embedding. *)
Definition new (h : Host.t) (options : IEditorOptions) (self : Emitter.listener) : Proc t :=
  do editor <- _computeInternalOptions h options false 1;
  do _ <- TabFocus_onDidChangeTabFocus self;
  Proc_ret (mk editor (clone editor) options false 1).

(** [this.editor] is set by the constructor and never reset, so the
    guard [this.editor &&] of the source always passes. *)
Definition _setOptions (newOptions : InternalEditorOptions.t) (c : t) : t * list effect :=
  if equals (editor c) newOptions then (c, [])
  else
    let changeEvent := createChangeEvent (editor c) newOptions in
    let c := mk newOptions (clone newOptions) (_configWithDefaults c)
                (_isDominatedByLongLines c) (_lineNumbersDigitCount c) in
    (c, [DidChange changeEvent]).

Definition _recomputeOptions (h : Host.t) (c : t) : Proc (t * list effect) :=
  do newOptions <- _computeInternalOptions h (_configWithDefaults c)
                     (_isDominatedByLongLines c) (_lineNumbersDigitCount c);
  let '(c, effects) := _setOptions newOptions c in
  Proc_ret (c, Recomputed newOptions :: effects).

Definition setIsDominatedByLongLines (h : Host.t) (isDominatedByLongLines : bool) (c : t)
    : Proc (t * list effect) :=
  let c := mk (editor c) (editorClone c) (_configWithDefaults c)
              isDominatedByLongLines (_lineNumbersDigitCount c) in
  _recomputeOptions h c.

(** [None]: the digit-count loop did not finish within [fuel] tests. *)
Definition setMaxLineNumber (fuel : nat) (h : Host.t) (maxLineNumber : Z) (c : t)
    (w : World) : option (t * list effect * World) :=
  digitCount ← digitCount fuel maxLineNumber;
  if _lineNumbersDigitCount c =? digitCount then Some (c, [], w)
  else
    let c := mk (editor c) (editorClone c) (_configWithDefaults c)
                (_isDominatedByLongLines c) digitCount in
    Some (_recomputeOptions h c w).

End Store.
End CommonEditorConfiguration.

(** ** A concrete environment

    An instance of the external collaborators on which the model runs:
    numbers are integers, a font is its line height and character width,
    and a layout is the viewport column, the outer width divided by the
    character width. *)
Module Sample.

Record font := Font { font_lineHeight : Z; font_charWidth : Z }.
#[global] Instance font_eq_dec : EqDecision font.
Proof. solve_decision. Defined.

Definition ext : External := {|
  number := Z;
  number_of_int := fun z => z;
  number_mul := Z.mul;
  number_add := Z.add;
  parseFloat := fun s => default 0 (JS.parseInt_string s);
  isNaN := fun _ => false;
  MIN_SAFE_SMALL_INTEGER := - 2 ^ 30;
  MAX_SAFE_SMALL_INTEGER := 2 ^ 30;
  DefaultConfig_minimap_enabled := false;
  DefaultConfig_minimap_renderCharacters := true;
  DefaultConfig_minimap_maxColumn := 120;
  BareFontInfo := Z;
  BareFontInfo_createFromRawSettings := fun opts => toInteger opts.["fontSize"] 1 100;
  FontInfo := font;
  fontInfo_lineHeight := font_lineHeight;
  fontInfo_typicalHalfwidthCharacterWidth := font_charWidth;
  fontInfo_maxDigitWidth := font_charWidth;
  EditorLayoutInfo := Z;
  viewportColumn := fun l => l;
  EditorLayoutProvider_compute := fun o =>
    IEditorLayoutProviderOpts.outerWidth o
      / IEditorLayoutProviderOpts.typicalHalfwidthCharacterWidth o;
|}.

Definition host : @Host.t ext :=
  @Host.mk ext
    (fun theme fontLigatures => "monaco-editor") (* _getEditorClassName *)
    1200                                         (* getOuterWidth *)
    800                                          (* getOuterHeight *)
    true                                         (* _getCanUseTranslate3d *)
    1                                            (* _getPixelRatio *)
    (fun bare => Font (2 * bare) 10)             (* readConfiguration *).

Definition options (l : list (string * value)) : IEditorOptions :=
  {| props := list_to_map l; scrollbar := ∅; minimap := ∅ |}.

Definition world (tabFocus : bool) : World :=
  {| world_TabFocus := TabFocus.mk tabFocus (Emitter.mk []);
     world_GlobalScreenReaderNVDA := GlobalScreenReaderNVDA.initial |}.

Definition normalize (opts : IEditorOptions) (isDominatedByLongLines : bool) (w : World)
    : @InternalEditorOptions.t ext * World :=
  @CommonEditorConfiguration._computeInternalOptions ext host opts
    isDominatedByLongLines 1 w.

End Sample.

Example sample_bounded :
  EditorWrappingInfo.wrappingColumn (InternalEditorOptions.wrappingInfo (fst
    (Sample.normalize
       (Sample.options [("fontSize", VNum 14); ("wordWrap", VStr "bounded");
                        ("wordWrapColumn", VNum 80)]) false (Sample.world false)))) = 80.
Proof. vm_compute. reflexivity. Qed.

(** ** Notions used to state further properties *)


(** A string made of decimal digits only. *)
Fixpoint all_digits (s : string) : bool :=
  match s with
  | String c s' => ChWidth.is_digit c && all_digits s'
  | EmptyString => true
  end.

(** The values [negb b], [b], [negb b], ... : [n] values, each the
    negation of the one before, the first the negation of [b]. *)
Fixpoint alternation (n : nat) (b : bool) : list bool :=
  match n with
  | O => []
  | S n' => negb b :: alternation n' (negb b)
  end.

(** Calls of [TabFocus.setTabFocusMode], one per value, in order; the
    deliveries of all the calls, in order. *)
Fixpoint setTabFocusMode_each (vs : list bool) (s : TabFocus.t)
  : TabFocus.t * list (Emitter.delivery bool) :=
  match vs with
  | [] => (s, [])
  | v :: vs' =>
      let '(s1, first) := TabFocus.setTabFocusMode v s in
      let '(s2, rest) := setTabFocusMode_each vs' s1 in
      (s2, (first ++ rest)%list)
  end.

(** Calls of [GlobalScreenReaderNVDA.setValue], one per value, in order. *)
Fixpoint setValue_each (vs : list bool) (s : GlobalScreenReaderNVDA.t)
  : GlobalScreenReaderNVDA.t * list (Emitter.delivery bool) :=
  match vs with
  | [] => (s, [])
  | v :: vs' =>
      let '(s1, first) := GlobalScreenReaderNVDA.setValue v s in
      let '(s2, rest) := setValue_each vs' s1 in
      (s2, (first ++ rest)%list)
  end.

Section StoreNotions.
Context `{External}.

(** The snapshot of a store is the normalization of the store's own
    options, long-lines flag and digit count, as the host [h] and the
    process-wide state [w] give it. *)
Definition in_sync (h : Host.t) (w : World) (c : CommonEditorConfiguration.t) : Prop :=
  CommonEditorConfiguration.editor c
  = fst (CommonEditorConfiguration._computeInternalOptions h
           (CommonEditorConfiguration._configWithDefaults c)
           (CommonEditorConfiguration._isDominatedByLongLines c)
           (CommonEditorConfiguration._lineNumbersDigitCount c) w).

(** The change events among the effects of a call. *)
Definition fired (effects : list CommonEditorConfiguration.effect)
  : list IConfigurationChangedEvent.t :=
  omap (fun e => match e with
                 | CommonEditorConfiguration.DidChange changeEvent => Some changeEvent
                 | CommonEditorConfiguration.Recomputed _ => None
                 end) effects.

End StoreNotions.

(** * Properties *)

(** ** Reading back a printed integer *)

Section ParseInt.

Lemma digit_of_pretty_N_char (x : N) :
  (x < 10)%N → JS.digit_of (pretty_N_char x) = Some (Z.of_N x).
Proof.
  intros Hx. destruct x as [| p]; [reflexivity |].
  do 4 (destruct p as [p | p |]; try reflexivity; try lia).
Qed.

Lemma parse_digits_pretty_N_go (x : N) (s : string) :
  (0 < x)%N →
  JS.parse_digits (pretty_N_go x s) None = JS.parse_digits s (Some (Z.of_N x)).
Proof.
  revert s. induction (N.lt_wf_0 x) as [x _ IH]. intros s Hx.
  rewrite pretty_N_go_step by done.
  assert (x `mod` 10 < 10)%N as Hmod by (apply N.mod_lt; lia).
  assert (x = 10 * x `div` 10 + x `mod` 10)%N as Hdiv by (apply N.div_mod; lia).
  destruct (decide (x `div` 10 = 0)%N) as [Hz | Hnz].
  - rewrite Hz, pretty_N_go_0. simpl.
    rewrite digit_of_pretty_N_char by done. f_equal. f_equal. lia.
  - rewrite IH; [| apply N.div_lt; lia | lia]. simpl.
    rewrite digit_of_pretty_N_char by done. f_equal. f_equal. lia.
Qed.

Lemma pretty_N_go_head (x : N) (s : string) :
  (0 < x)%N →
  ∃ d rest, (d < 10)%N ∧ pretty_N_go x s = String (pretty_N_char d) rest.
Proof.
  revert s. induction (N.lt_wf_0 x) as [x _ IH]. intros s Hx.
  rewrite pretty_N_go_step by done.
  destruct (decide (x `div` 10 = 0)%N) as [Hz | Hnz].
  - rewrite Hz, pretty_N_go_0. eexists _, _. split; [| reflexivity].
    apply N.mod_lt. lia.
  - apply IH; [apply N.div_lt; lia | by apply N.neq_0_lt_0].
Qed.

Lemma parseInt_string_digit (d : N) (rest : string) :
  (d < 10)%N →
  JS.parseInt_string (String (pretty_N_char d) rest)
  = (fun m => 1 * JS.nearest_double_nonneg m)
      <$> JS.parse_digits (String (pretty_N_char d) rest) None.
Proof.
  intros Hd. destruct d as [| p]; [reflexivity |].
  do 4 (destruct p as [p | p |]; try reflexivity; try lia).
Qed.

Lemma parseInt_string_pretty_N (x : N) :
  (Z.of_N x < 2 ^ 53) →
  JS.parseInt_string (pretty x) = Some (Z.of_N x).
Proof.
  intros Hx. unfold pretty, pretty_N. case_decide as Hz.
  - subst x. reflexivity.
  - destruct (pretty_N_go_head x "") as (d & rest & Hd & Heq); [lia |].
    rewrite Heq, parseInt_string_digit, <- Heq by done.
    rewrite parse_digits_pretty_N_go by lia. simpl.
    unfold JS.nearest_double_nonneg.
    destruct (Z.ltb_spec (Z.of_N x) (2 ^ 53)); [| lia].
    f_equal. lia.
Qed.

Lemma parseInt_VNum (z : Z) :
  - 2 ^ 53 < z < 2 ^ 53 → JS.parseInt (VNum z) = Some z.
Proof.
  intros Hz. unfold JS.parseInt. simpl. destruct z as [| p | p].
  - reflexivity.
  - apply (parseInt_string_pretty_N (Npos p)). lia.
  - change (pretty (Z.neg p)) with (String "-" (pretty (Npos p))).
    unfold pretty, pretty_N in *. case_decide as Hnz; [lia |].
    destruct (pretty_N_go_head (Npos p) "") as (d & rest & Hd & Heq); [lia |].
    unfold JS.parseInt_string. simpl JS.trim_left. cbv iota beta.
    rewrite parse_digits_pretty_N_go by lia. simpl.
    unfold JS.nearest_double_nonneg.
    destruct (Z.ltb_spec (Z.pos p) (2 ^ 53)); [| lia].
    f_equal.
Qed.

Lemma to_int32_small (r : Z) : - 2 ^ 31 ≤ r < 2 ^ 31 → JS.to_int32 r = r.
Proof.
  intros Hr. unfold JS.to_int32.
  rewrite Z.mod_small by lia. lia.
Qed.

Lemma to_int32_range (r : Z) : - 2 ^ 31 ≤ JS.to_int32 r < 2 ^ 31.
Proof.
  unfold JS.to_int32.
  pose proof (Z.mod_pos_bound (r + 2 ^ 31) (2 ^ 32) ltac:(lia)). lia.
Qed.

Lemma toInteger_VNum (z minimum maximum : Z) :
  minimum ≤ z ≤ maximum → - 2 ^ 31 ≤ z < 2 ^ 31 →
  toInteger (VNum z) minimum maximum = z.
Proof.
  intros Hb Hz. unfold toInteger.
  rewrite parseInt_VNum by lia.
  rewrite Z.max_r, Z.min_r by lia.
  by apply to_int32_small.
Qed.

End ParseInt.

(** ** The digit-count loop *)

Section DigitCount.

Lemma digitCount_loop_zero (fuel : nat) (r : Z) :
  (0 < fuel)%nat → digitCount_loop fuel 0 r = Some r.
Proof. destruct fuel; [lia | reflexivity]. Qed.

(** On a positive [n] the loop runs [d] times, [d] being the number of
    decimal digits of [n], and needs one more test to leave. *)
Lemma digitCount_loop_pos (n : Z) :
  0 ≤ n → 0 < n →
  ∃ d : nat, (0 < d)%nat ∧ 10 ^ (Z.of_nat d - 1) ≤ n < 10 ^ Z.of_nat d ∧
    ∀ (fuel : nat) (r : Z), (d < fuel)%nat →
      digitCount_loop fuel n r = Some (r + Z.of_nat d).
Proof.
  intros Hn. pattern n. apply Z_lt_induction; [| exact Hn].
  clear n Hn. intros n IH Hpos.
  assert (0 ≤ n / 10 < n) as Hq by (split; [apply Z.div_pos | apply Z.div_lt]; lia).
  destruct (decide (n / 10 = 0)) as [Hz | Hnz].
  - exists 1%nat. split; [lia |]. split.
    + assert (n < 10) by (apply Z.div_small_iff in Hz; lia).
      change (10 ^ (Z.of_nat 1 - 1)) with 1. change (10 ^ Z.of_nat 1) with 10. lia.
    + intros fuel r Hfuel. destruct fuel as [| fuel]; [lia |]. simpl.
      destruct (Z.eqb_spec n 0); [lia |].
      rewrite Hz, digitCount_loop_zero by lia. f_equal; lia.
  - destruct (IH (n / 10)) as (d & Hd & Hbounds & Hrun); [lia | lia |].
    exists (S d). split; [lia |]. split.
    + assert (10 ^ Z.of_nat d = 10 * 10 ^ (Z.of_nat d - 1)) as E1
        by (rewrite <- Z.pow_succ_r by lia; f_equal; lia).
      assert (10 ^ Z.of_nat (S d) = 10 * 10 ^ Z.of_nat d) as E2
        by (rewrite <- Z.pow_succ_r by lia; f_equal; lia).
      replace (Z.of_nat (S d) - 1) with (Z.of_nat d) by lia.
      rewrite E2.
      pose proof (Z.div_mod n 10 ltac:(lia)) as Hdm.
      pose proof (Z.mod_pos_bound n 10 ltac:(lia)).
      lia.
    + intros fuel r Hfuel. destruct fuel as [| fuel]; [lia |]. simpl.
      destruct (Z.eqb_spec n 0); [lia |].
      rewrite Hrun by lia. f_equal; lia.
Qed.

(** On a negative [n] the quotient stays negative: the condition of the
    loop never fails. *)
Lemma digitCount_loop_neg (fuel : nat) (n r : Z) :
  n < 0 → digitCount_loop fuel n r = None.
Proof.
  revert n r. induction fuel as [| fuel IH]; intros n r Hn; [reflexivity |].
  simpl. destruct (Z.eqb_spec n 0); [lia |].
  apply IH. apply Z.div_lt_upper_bound; lia.
Qed.

Lemma digitCount_nonneg (n : Z) :
  0 ≤ n →
  ∃ d : Z, 1 ≤ d ∧ (n = 0 → d = 1) ∧ (1 ≤ n → 10 ^ (d - 1) ≤ n < 10 ^ d) ∧
    ∀ fuel : nat, d < Z.of_nat fuel → digitCount fuel n = Some d.
Proof.
  intros Hn. destruct (decide (n = 0)) as [-> | Hnz].
  - exists 1. repeat split; try lia.
    intros fuel Hfuel. unfold digitCount.
    rewrite digitCount_loop_zero by lia. reflexivity.
  - destruct (digitCount_loop_pos n) as (d & Hd & Hbounds & Hrun); [lia | lia |].
    exists (Z.of_nat d). repeat split; try lia.
    intros fuel Hfuel. unfold digitCount.
    rewrite Hrun by lia. simpl.
    destruct (Z.eqb_spec (0 + Z.of_nat d) 0); [lia |]. f_equal; lia.
Qed.

End DigitCount.

(** C10.  For every non-negative integer [n] the digit-count helper
    terminates (any number of loop tests above the result is enough) and
    returns the number of decimal digits of [n]: 1 when [n = 0], and the
    [d] with [10^(d-1) <= n < 10^d], that is [floor(log10 n) + 1], when
    [n >= 1].  The loop is well-founded only for [n >= 0]: on a negative
    [n] it never leaves, whatever the number of tests allowed. *)
Theorem digitCount_terminates_and_counts (n : Z) :
  (0 ≤ n →
   ∃ d : Z, 1 ≤ d ∧ (n = 0 → d = 1) ∧ (1 ≤ n → 10 ^ (d - 1) ≤ n < 10 ^ d) ∧
     ∀ fuel : nat, d < Z.of_nat fuel → digitCount fuel n = Some d) ∧
  (n < 0 → ∀ fuel : nat, digitCount fuel n = None).
Proof.
  split.
  - apply digitCount_nonneg.
  - intros Hn fuel. unfold digitCount.
    rewrite digitCount_loop_neg by done. reflexivity.
Qed.

Lemma digitCount_terminates_and_counts_witness :
  (∃ d : Z, 1 ≤ d ∧ (1234 = 0 → d = 1) ∧ (1 ≤ 1234 → 10 ^ (d - 1) ≤ 1234 < 10 ^ d) ∧
     ∀ fuel : nat, d < Z.of_nat fuel → digitCount fuel 1234 = Some d) ∧
  (∀ fuel : nat, digitCount fuel (-7) = None).
Proof.
  split.
  - apply (proj1 (digitCount_terminates_and_counts 1234)). lia.
  - apply (proj2 (digitCount_terminates_and_counts (-7))). lia.
Defined.

(** ** [toInteger] *)

(** C4.  [toInteger(value, min, max)] reads [value] as a base-10 integer
    (an integral number or its decimal digits read back as that integer),
    takes 0 when nothing can be read, applies the lower bound and then the
    upper bound, so that the result lies in [[min, max]] and the upper
    bound wins when [min] exceeds [max], and truncates to 32 bits; the
    bounds left out default to [MIN_SAFE_SMALL_INTEGER] and
    [MAX_SAFE_SMALL_INTEGER].  In particular
    [toInteger("9999999999999999", 0, 100) = 100] and
    [toInteger("abc", 5, 10) = 5]. *)
Theorem toInteger_parses_clamps_truncates `{External}
    (source : value) (minimum maximum : Z) :
  (∀ z, - 2 ^ 53 < z < 2 ^ 53 →
     JS.parseInt (VNum z) = Some z ∧ JS.parseInt (VStr (pretty z)) = Some z) ∧
  (JS.parseInt source = None →
     toInteger source minimum maximum = JS.to_int32 (Z.min maximum (Z.max minimum 0))) ∧
  (∀ r, JS.parseInt source = Some r →
     toInteger source minimum maximum = JS.to_int32 (Z.min maximum (Z.max minimum r))) ∧
  (minimum ≤ maximum → - 2 ^ 31 ≤ minimum → maximum < 2 ^ 31 →
     minimum ≤ toInteger source minimum maximum ≤ maximum) ∧
  (maximum < minimum → toInteger source minimum maximum = JS.to_int32 maximum) ∧
  - 2 ^ 31 ≤ toInteger source minimum maximum < 2 ^ 31 ∧
  toInteger_1 source = toInteger source MIN_SAFE_SMALL_INTEGER MAX_SAFE_SMALL_INTEGER ∧
  toInteger_2 source minimum = toInteger source minimum MAX_SAFE_SMALL_INTEGER ∧
  toInteger (VStr "9999999999999999") 0 100 = 100 ∧
  toInteger (VStr "abc") 5 10 = 5.
Proof.
  split; [| split; [| split; [| split; [| split; [| split]]]]].
  - intros z Hz. split; [by apply parseInt_VNum |].
    apply (parseInt_VNum z Hz).
  - intros Hnone. unfold toInteger. by rewrite Hnone.
  - intros r Hsome. unfold toInteger. by rewrite Hsome.
  - intros Hle Hlo Hhi. unfold toInteger.
    rewrite to_int32_small; lia.
  - intros Hlt. unfold toInteger. f_equal. lia.
  - apply to_int32_range.
  - repeat split; reflexivity.
Qed.

Lemma toInteger_parses_clamps_truncates_witness :
  JS.parseInt (VNum 42) = Some 42 ∧
  toInteger (VStr "abc") 5 10 = JS.to_int32 (Z.min 10 (Z.max 5 0)) ∧
  toInteger (VStr "12px") 0 3 = JS.to_int32 (Z.min 3 (Z.max 0 12)) ∧
  0 ≤ toInteger (VStr "12px") 0 3 ≤ 3 ∧
  toInteger (VNum 7) 10 5 = JS.to_int32 5.
Proof.
  pose proof (toInteger_parses_clamps_truncates (H := Sample.ext) (VStr "abc") 5 10)
    as (Hnum & Hnone & _).
  pose proof (toInteger_parses_clamps_truncates (H := Sample.ext) (VStr "12px") 0 3)
    as (_ & _ & Hsome & Hclamp & _).
  pose proof (toInteger_parses_clamps_truncates (H := Sample.ext) (VNum 7) 10 5)
    as (_ & _ & _ & _ & Hwins & _).
  split; [apply Hnum; lia |].
  split; [apply Hnone; reflexivity |].
  split; [apply Hsome; reflexivity |].
  split; [apply Hclamp; lia |].
  apply Hwins; lia.
Defined.

(** ** [toSortedIntegerArray] *)

Section SortOrder.

Lemma String_compare_trans (s1 : string) :
  ∀ s2 s3, String.compare s1 s2 ≠ Gt → String.compare s2 s3 ≠ Gt →
           String.compare s1 s3 ≠ Gt.
Proof.
  induction s1 as [| c1 s1 IH]; intros [| c2 s2] [| c3 s3]; simpl; try done.
  unfold Ascii.compare.
  destruct (N.compare_spec (N_of_ascii c1) (N_of_ascii c2));
    destruct (N.compare_spec (N_of_ascii c2) (N_of_ascii c3));
    destruct (N.compare_spec (N_of_ascii c1) (N_of_ascii c3));
    try done; try lia.
  apply IH.
Qed.

Lemma String_leb_le (s1 s2 : string) :
  String.leb s1 s2 = true ↔ String.compare s1 s2 ≠ Gt.
Proof. unfold String.leb. destruct (String.compare s1 s2); split; done. Qed.

#[global] Instance sort_le_trans : Transitive sort_le.
Proof.
  intros x y z. unfold sort_le. rewrite !String_leb_le.
  apply String_compare_trans.
Qed.

#[global] Instance sort_le_total : Total sort_le.
Proof. intros x y. unfold sort_le. apply String.leb_total. Qed.

End SortOrder.

(** C3.  [toSortedIntegerArray] returns the empty array for every input
    that is not an array, and for an array the elements coerced through
    [toInteger] with the default bounds, rearranged into the order of
    [Array.prototype.sort] without a comparison function: the order of the
    decimal renderings compared as strings.  That order puts
    [toSortedIntegerArray([3,"1",2])] at [[1,2,3]], but it is not the
    ascending numeric one: [toSortedIntegerArray([80,120])] is [[120,80]]. *)
Theorem toSortedIntegerArray_sorts_as_strings `{External} :
  MIN_SAFE_SMALL_INTEGER ≤ 0 → 120 ≤ MAX_SAFE_SMALL_INTEGER →
  (∀ source, JS.isArray source = false → toSortedIntegerArray source = []) ∧
  (∀ elems,
     toSortedIntegerArray (VArr elems) ≡ₚ map toInteger_1 elems ∧
     StronglySorted sort_le (toSortedIntegerArray (VArr elems))) ∧
  toSortedIntegerArray (VArr [VNum 3; VStr "1"; VNum 2]) = [1; 2; 3] ∧
  toSortedIntegerArray (VArr [VNum 80; VNum 120]) = [120; 80] ∧
  ¬ Sorted Z.le (toSortedIntegerArray (VArr [VNum 80; VNum 120])).
Proof.
  intros Hmin Hmax.
  assert (∀ z, 0 ≤ z ≤ 120 → toInteger_1 (VNum z) = z) as Hnum.
  { intros z Hz. unfold toInteger_1. apply toInteger_VNum; lia. }
  assert (toInteger_1 (VStr "1") = 1) as Hstr.
  { unfold toInteger_1, toInteger.
    change (JS.parseInt (VStr "1")) with (Some 1).
    rewrite Z.max_r, Z.min_r by lia. reflexivity. }
  assert (toSortedIntegerArray (VArr [VNum 80; VNum 120]) = [120; 80]) as Hrulers.
  { unfold toSortedIntegerArray. simpl map. rewrite !Hnum by lia. reflexivity. }
  split; [| split; [| split; [| split]]].
  - intros source Harr. destruct source; try reflexivity. discriminate.
  - intros elems. unfold toSortedIntegerArray, Array_sort. split.
    + apply merge_sort_Permutation.
    + apply StronglySorted_merge_sort; apply _.
  - unfold toSortedIntegerArray. simpl map. rewrite !Hnum, Hstr by lia. reflexivity.
  - exact Hrulers.
  - rewrite Hrulers. intros Hsorted.
    apply Sorted_inv in Hsorted as [_ Hhd].
    apply HdRel_inv in Hhd. lia.
Qed.

Lemma toSortedIntegerArray_sorts_as_strings_witness :
  @toSortedIntegerArray Sample.ext (VArr [VNum 80; VNum 120]) = [120; 80] ∧
  @toSortedIntegerArray Sample.ext (VArr [VNum 3; VStr "1"; VNum 2]) = [1; 2; 3].
Proof.
  assert (@MIN_SAFE_SMALL_INTEGER Sample.ext ≤ 0) as Hmin by (simpl; lia).
  assert (120 ≤ @MAX_SAFE_SMALL_INTEGER Sample.ext) as Hmax by (simpl; lia).
  pose proof (toSortedIntegerArray_sorts_as_strings (H := Sample.ext) Hmin Hmax)
    as (_ & _ & Hex & Hrulers & _).
  split; [exact Hrulers | exact Hex].
Defined.

(** ** The shared toggles *)

(** C6.  Both shared toggles start at [false].  Setting the value a toggle
    already holds changes nothing and notifies nobody; setting a different
    value stores it, leaves the subscribers as they are and notifies every
    current subscriber exactly once, in subscription order, with the new
    value, after which the getter returns it.  Hence two calls of
    [set(true)] in a row, starting from [false], notify every subscriber
    exactly once. *)
Theorem shared_toggle_set_notifies_on_change :
  (TabFocus.getTabFocusMode TabFocus.initial = false ∧
   (∀ s v, TabFocus.getTabFocusMode s = v → TabFocus.setTabFocusMode v s = (s, [])) ∧
   (∀ s v, TabFocus.getTabFocusMode s ≠ v →
      let '(s', deliveries) := TabFocus.setTabFocusMode v s in
      TabFocus.getTabFocusMode s' = v ∧
      TabFocus._onDidChangeTabFocus s' = TabFocus._onDidChangeTabFocus s ∧
      deliveries = map (fun l => (l, v)) (Emitter.listeners (TabFocus._onDidChangeTabFocus s))) ∧
   (∀ s, TabFocus.getTabFocusMode s = false →
      let '(s1, first) := TabFocus.setTabFocusMode true s in
      let '(s2, second) := TabFocus.setTabFocusMode true s1 in
      TabFocus.getTabFocusMode s2 = true ∧
      (first ++ second)%list
      = map (fun l => (l, true)) (Emitter.listeners (TabFocus._onDidChangeTabFocus s)))) ∧
  (GlobalScreenReaderNVDA.getValue GlobalScreenReaderNVDA.initial = false ∧
   (∀ s v, GlobalScreenReaderNVDA.getValue s = v →
      GlobalScreenReaderNVDA.setValue v s = (s, [])) ∧
   (∀ s v, GlobalScreenReaderNVDA.getValue s ≠ v →
      let '(s', deliveries) := GlobalScreenReaderNVDA.setValue v s in
      GlobalScreenReaderNVDA.getValue s' = v ∧
      GlobalScreenReaderNVDA._onChange s' = GlobalScreenReaderNVDA._onChange s ∧
      deliveries = map (fun l => (l, v)) (Emitter.listeners (GlobalScreenReaderNVDA._onChange s))) ∧
   (∀ s, GlobalScreenReaderNVDA.getValue s = false →
      let '(s1, first) := GlobalScreenReaderNVDA.setValue true s in
      let '(s2, second) := GlobalScreenReaderNVDA.setValue true s1 in
      GlobalScreenReaderNVDA.getValue s2 = true ∧
      (first ++ second)%list
      = map (fun l => (l, true)) (Emitter.listeners (GlobalScreenReaderNVDA._onChange s)))).
Proof.
  split.
  - split; [reflexivity |]. split; [| split].
    + intros [b e] v <-. unfold TabFocus.setTabFocusMode. simpl.
      by rewrite Bool.eqb_reflx.
    + intros [b e] v Hne. unfold TabFocus.setTabFocusMode. simpl in *.
      destruct (Bool.eqb_spec b v); [done |]. simpl. done.
    + intros [b e] Hb. simpl in Hb. subst b.
      unfold TabFocus.setTabFocusMode. simpl.
      by rewrite app_nil_r.
  - split; [reflexivity |]. split; [| split].
    + intros [b e] v <-. unfold GlobalScreenReaderNVDA.setValue. simpl.
      by rewrite Bool.eqb_reflx.
    + intros [b e] v Hne. unfold GlobalScreenReaderNVDA.setValue. simpl in *.
      destruct (Bool.eqb_spec b v); [done |]. simpl. done.
    + intros [b e] Hb. simpl in Hb. subst b.
      unfold GlobalScreenReaderNVDA.setValue. simpl.
      by rewrite app_nil_r.
Qed.

Lemma shared_toggle_set_notifies_on_change_witness :
  let s := TabFocus.mk false (Emitter.mk [1%positive; 2%positive]) in
  TabFocus.setTabFocusMode false s = (s, []) ∧
  (let '(s1, first) := TabFocus.setTabFocusMode true s in
   let '(s2, second) := TabFocus.setTabFocusMode true s1 in
   TabFocus.getTabFocusMode s2 = true ∧
   (first ++ second)%list = [(1%positive, true); (2%positive, true)]).
Proof.
  pose proof shared_toggle_set_notifies_on_change as [(_ & Hsame & _ & Htwice) _].
  split.
  - apply Hsame. reflexivity.
  - apply (Htwice (TabFocus.mk false (Emitter.mk [1%positive; 2%positive]))).
    reflexivity.
Defined.

(** ** The normalizer *)

Section Normalizer.
Context `{External}.

Lemma get_set_prop_eq (name : string) (v : value) (opts : IEditorOptions) :
  (set_prop name v opts).[name] = v.
Proof. unfold get, set_prop. simpl. apply lookup_total_insert_eq. Qed.

Lemma get_set_prop_ne (name name' : string) (v : value) (opts : IEditorOptions) :
  name ≠ name' → (set_prop name v opts).[name'] = opts.[name'].
Proof. intros Hne. unfold get, set_prop. simpl. by apply lookup_total_insert_ne. Qed.

(** A pass returns the process-wide state it was run in. *)
Lemma createInternalEditorOptions_world
    outerWidth outerHeight opts fontInfo editorClassName isDominatedByLongLines
    lineNumbersDigitCount canUseTranslate3d pixelRatio (w : World) :
  snd (InternalEditorOptionsHelper.createInternalEditorOptions
         outerWidth outerHeight opts fontInfo editorClassName isDominatedByLongLines
         lineNumbersDigitCount canUseTranslate3d pixelRatio w) = w.
Proof.
  unfold InternalEditorOptionsHelper.createInternalEditorOptions.
  destruct (InternalEditorOptionsHelper.lineNumbersInfo opts) as [[? ?] ?].
  reflexivity.
Qed.

Lemma createInternalEditorOptions_tabFocusMode
    outerWidth outerHeight opts fontInfo editorClassName isDominatedByLongLines
    lineNumbersDigitCount canUseTranslate3d pixelRatio (w : World) :
  InternalEditorOptions.tabFocusMode
    (fst (InternalEditorOptionsHelper.createInternalEditorOptions
            outerWidth outerHeight opts fontInfo editorClassName isDominatedByLongLines
            lineNumbersDigitCount canUseTranslate3d pixelRatio w))
  = if toBoolean opts.["readOnly"] then true
    else TabFocus.getTabFocusMode (world_TabFocus w).
Proof.
  unfold InternalEditorOptionsHelper.createInternalEditorOptions.
  destruct (InternalEditorOptionsHelper.lineNumbersInfo opts) as [[? ?] ?].
  reflexivity.
Qed.

Lemma createInternalEditorOptions_wrappingInfo
    outerWidth outerHeight opts fontInfo editorClassName isDominatedByLongLines
    lineNumbersDigitCount canUseTranslate3d pixelRatio (w : World) :
  let o := fst (InternalEditorOptionsHelper.createInternalEditorOptions
                  outerWidth outerHeight opts fontInfo editorClassName
                  isDominatedByLongLines lineNumbersDigitCount canUseTranslate3d
                  pixelRatio w) in
  (EditorWrappingInfo.isViewportWrapping (InternalEditorOptions.wrappingInfo o),
   EditorWrappingInfo.wrappingColumn (InternalEditorOptions.wrappingInfo o))
  = InternalEditorOptionsHelper.bareWrappingInfo opts isDominatedByLongLines
      (InternalEditorOptions.layoutInfo o).
Proof.
  unfold InternalEditorOptionsHelper.createInternalEditorOptions.
  destruct (InternalEditorOptionsHelper.lineNumbersInfo opts) as [[? ?] ?].
  simpl. by destruct (InternalEditorOptionsHelper.bareWrappingInfo _ _ _).
Qed.

(** Two passes on the same inputs differ at most by the value read from
    the tab-focus toggle. *)
Lemma createInternalEditorOptions_same_toggle
    outerWidth outerHeight opts fontInfo editorClassName isDominatedByLongLines
    lineNumbersDigitCount canUseTranslate3d pixelRatio (w1 w2 : World) :
  (if toBoolean opts.["readOnly"] then true
   else TabFocus.getTabFocusMode (world_TabFocus w1))
  = (if toBoolean opts.["readOnly"] then true
     else TabFocus.getTabFocusMode (world_TabFocus w2)) →
  fst (InternalEditorOptionsHelper.createInternalEditorOptions
         outerWidth outerHeight opts fontInfo editorClassName isDominatedByLongLines
         lineNumbersDigitCount canUseTranslate3d pixelRatio w1)
  = fst (InternalEditorOptionsHelper.createInternalEditorOptions
           outerWidth outerHeight opts fontInfo editorClassName isDominatedByLongLines
           lineNumbersDigitCount canUseTranslate3d pixelRatio w2).
Proof.
  intros Heq.
  unfold InternalEditorOptionsHelper.createInternalEditorOptions.
  destruct (InternalEditorOptionsHelper.lineNumbersInfo opts) as [[? ?] ?].
  unfold Proc_bind, Proc_ret, TabFocus_getTabFocusMode. cbn [fst].
  rewrite Heq. reflexivity.
Qed.

End Normalizer.

Section WordWrap.
Context `{External}.

Lemma is_str_true (v : value) (lit : string) : JS.is_str v lit = true ↔ v = VStr lit.
Proof.
  destruct v; simpl; try (split; [discriminate | congruence]).
  destruct (String.eqb_spec s lit); split; congruence.
Qed.

(** The five cases of [bareWrappingInfo], in the order the code tests
    them. *)
Lemma bareWrappingInfo_cases (opts : IEditorOptions) (dominated : bool)
    (layoutInfo : EditorLayoutInfo) :
  let viewport := Z.max 1 (viewportColumn layoutInfo) in
  let column := toInteger_2 opts.["wordWrapColumn"] 1 in
  let mode := opts.["wordWrap"] in
  let result := InternalEditorOptionsHelper.bareWrappingInfo opts dominated layoutInfo in
  (dominated = true → result = (true, viewport)) ∧
  (dominated = false → mode = VStr "on" ∨ mode = VBool true → result = (true, viewport)) ∧
  (dominated = false → mode = VStr "bounded" → result = (true, Z.min viewport column)) ∧
  (dominated = false → mode = VStr "wordWrapColumn" → result = (false, column)) ∧
  (dominated = false → mode ≠ VStr "on" → mode ≠ VBool true → mode ≠ VStr "bounded" →
   mode ≠ VStr "wordWrapColumn" → result = (false, -1)).
Proof.
  unfold InternalEditorOptionsHelper.bareWrappingInfo. cbv zeta.
  split; [| split; [| split; [| split]]].
  - by intros ->.
  - by intros -> [-> | ->].
  - by intros -> ->.
  - by intros -> ->.
  - intros -> Hon Htrue Hbounded Hcolumn.
    destruct (opts.["wordWrap"]) as [| | [|] | | s | | |]; try done.
    simpl.
    destruct (String.eqb_spec s "on"); [congruence |].
    destruct (String.eqb_spec s "bounded"); [congruence |].
    destruct (String.eqb_spec s "wordWrapColumn"); [congruence |].
    done.
Qed.

End WordWrap.

(** C2.  Wrapping is resolved in priority order.  With [viewport] the
    computed viewport column (the layout's, and at least 1) and [column]
    the configured wrap column (the option coerced to an integer that is at
    least 1): a model dominated by long lines gets viewport-width wrapping
    at [viewport] whatever the configured mode; otherwise ['on'] (or the
    legacy [true]) gives viewport-width wrapping at [viewport], ['bounded']
    viewport-width wrapping at [min viewport column], ['wordWrapColumn']
    fixed-column wrapping at [column], and every other value no wrapping,
    with the column -1. *)
Theorem wordWrap_resolution `{External}
    outerWidth outerHeight opts fontInfo editorClassName isDominatedByLongLines
    lineNumbersDigitCount canUseTranslate3d pixelRatio (w : World) :
  let o := fst (InternalEditorOptionsHelper.createInternalEditorOptions
                  outerWidth outerHeight opts fontInfo editorClassName
                  isDominatedByLongLines lineNumbersDigitCount canUseTranslate3d
                  pixelRatio w) in
  let wrapping :=
    (EditorWrappingInfo.isViewportWrapping (InternalEditorOptions.wrappingInfo o),
     EditorWrappingInfo.wrappingColumn (InternalEditorOptions.wrappingInfo o)) in
  let viewport := Z.max 1 (viewportColumn (InternalEditorOptions.layoutInfo o)) in
  let column := toInteger_2 opts.["wordWrapColumn"] 1 in
  let mode := opts.["wordWrap"] in
  (1 ≤ viewportColumn (InternalEditorOptions.layoutInfo o) →
     viewport = viewportColumn (InternalEditorOptions.layoutInfo o)) ∧
  (∀ c, opts.["wordWrapColumn"] = VNum c → 1 ≤ c ≤ MAX_SAFE_SMALL_INTEGER → c < 2 ^ 31 →
     column = c) ∧
  (isDominatedByLongLines = true → wrapping = (true, viewport)) ∧
  (isDominatedByLongLines = false → mode = VStr "on" ∨ mode = VBool true →
     wrapping = (true, viewport)) ∧
  (isDominatedByLongLines = false → mode = VStr "bounded" →
     wrapping = (true, Z.min viewport column)) ∧
  (isDominatedByLongLines = false → mode = VStr "wordWrapColumn" →
     wrapping = (false, column)) ∧
  (isDominatedByLongLines = false → mode ≠ VStr "on" → mode ≠ VBool true →
   mode ≠ VStr "bounded" → mode ≠ VStr "wordWrapColumn" →
     wrapping = (false, -1)).
Proof.
  intros o wrapping viewport column mode.
  split; [intros; subst viewport; lia |].
  split.
  { intros c Hc Hrange Hint. subst column. rewrite Hc.
    unfold toInteger_2. apply toInteger_VNum; lia. }
  subst wrapping o.
  rewrite createInternalEditorOptions_wrappingInfo.
  apply bareWrappingInfo_cases.
Qed.

Lemma wordWrap_resolution_witness :
  let opts := Sample.options [("fontSize", VNum 14); ("wordWrap", VStr "bounded");
                              ("wordWrapColumn", VNum 80)] in
  let o := fst (InternalEditorOptionsHelper.createInternalEditorOptions (H := Sample.ext)
                  1200 800 opts (Sample.Font 28 10) "monaco-editor" false 1 true 1
                  (Sample.world false)) in
  @viewportColumn Sample.ext (InternalEditorOptions.layoutInfo o) = 120 ∧
  (EditorWrappingInfo.isViewportWrapping (InternalEditorOptions.wrappingInfo o),
   EditorWrappingInfo.wrappingColumn (InternalEditorOptions.wrappingInfo o))
  = (true, Z.min 120 80).
Proof.
  intros opts o.
  pose proof (wordWrap_resolution (H := Sample.ext)
                1200 800 opts (Sample.Font 28 10) "monaco-editor" false 1 true 1
                (Sample.world false)) as (Hviewport & Hcolumn & _ & _ & Hbounded & _).
  assert (@viewportColumn Sample.ext (InternalEditorOptions.layoutInfo o) = 120) as Hvc
    by reflexivity.
  split; [exact Hvc |].
  fold o in Hviewport, Hbounded.
  rewrite Hviewport in Hbounded by (rewrite Hvc; lia).
  rewrite (Hcolumn 80) in Hbounded by (reflexivity || (simpl; lia)).
  rewrite Hvc in Hbounded.
  apply Hbounded; reflexivity.
Defined.

(** C5.  In every normalization pass whose [readOnly] option coerces to
    [true], the snapshot's [tabFocusMode] is [true] whatever the shared
    tab-focus toggle holds, and the pass leaves the process-wide state, the
    toggle's stored value included, as it found it. *)
Theorem readOnly_forces_tabFocusMode `{External}
    outerWidth outerHeight opts fontInfo editorClassName isDominatedByLongLines
    lineNumbersDigitCount canUseTranslate3d pixelRatio (w : World) :
  toBoolean opts.["readOnly"] = true →
  let '(o, w') :=
    InternalEditorOptionsHelper.createInternalEditorOptions
      outerWidth outerHeight opts fontInfo editorClassName isDominatedByLongLines
      lineNumbersDigitCount canUseTranslate3d pixelRatio w in
  InternalEditorOptions.tabFocusMode o = true ∧
  w' = w ∧
  TabFocus.getTabFocusMode (world_TabFocus w') = TabFocus.getTabFocusMode (world_TabFocus w).
Proof.
  intros HreadOnly.
  pose proof (createInternalEditorOptions_tabFocusMode
                outerWidth outerHeight opts fontInfo editorClassName isDominatedByLongLines
                lineNumbersDigitCount canUseTranslate3d pixelRatio w) as Hmode.
  pose proof (createInternalEditorOptions_world
                outerWidth outerHeight opts fontInfo editorClassName isDominatedByLongLines
                lineNumbersDigitCount canUseTranslate3d pixelRatio w) as Hworld.
  destruct (InternalEditorOptionsHelper.createInternalEditorOptions _ _ _ _ _ _ _ _ _ _)
    as [o w'].
  simpl in Hmode, Hworld. subst w'.
  rewrite HreadOnly in Hmode. done.
Qed.

Lemma readOnly_forces_tabFocusMode_witness :
  let '(o, w') :=
    InternalEditorOptionsHelper.createInternalEditorOptions (H := Sample.ext)
      1200 800 (Sample.options [("readOnly", VBool true)]) (Sample.Font 28 10)
      "monaco-editor" false 1 true 1 (Sample.world false) in
  InternalEditorOptions.tabFocusMode o = true ∧
  w' = Sample.world false ∧
  TabFocus.getTabFocusMode (world_TabFocus w') = false.
Proof.
  apply (readOnly_forces_tabFocusMode (H := Sample.ext)
           1200 800 (Sample.options [("readOnly", VBool true)]) (Sample.Font 28 10)
           "monaco-editor" false 1 true 1 (Sample.world false)).
  reflexivity.
Defined.

(** C9, as the spec states it, fails: two passes on identical listed
    inputs give different snapshots when the shared tab-focus toggle holds
    different values. *)
Lemma normalization_reads_tabFocus_toggle :
  fst (InternalEditorOptionsHelper.createInternalEditorOptions (H := Sample.ext)
         1200 800 (Sample.options []) (Sample.Font 28 10) "monaco-editor" false 1 true 1
         (Sample.world false))
  ≠ fst (InternalEditorOptionsHelper.createInternalEditorOptions (H := Sample.ext)
           1200 800 (Sample.options []) (Sample.Font 28 10) "monaco-editor" false 1 true 1
           (Sample.world true)).
Proof.
  intros Heq.
  apply (f_equal InternalEditorOptions.tabFocusMode) in Heq.
  vm_compute in Heq. discriminate.
Qed.

(** C9, amended.  Normalization is deterministic given its listed inputs
    and the value the shared tab-focus toggle holds: two passes on
    identical inputs, run in process-wide states whose tab-focus toggle
    holds the same value, yield identical snapshots, whatever else differs
    between the two states; when [readOnly] coerces to [true] the toggle
    does not matter either. *)
Theorem normalization_deterministic_given_tabFocus `{External}
    outerWidth outerHeight opts fontInfo editorClassName isDominatedByLongLines
    lineNumbersDigitCount canUseTranslate3d pixelRatio (w1 w2 : World) :
  let normalize :=
    InternalEditorOptionsHelper.createInternalEditorOptions
      outerWidth outerHeight opts fontInfo editorClassName isDominatedByLongLines
      lineNumbersDigitCount canUseTranslate3d pixelRatio in
  (TabFocus.getTabFocusMode (world_TabFocus w1) = TabFocus.getTabFocusMode (world_TabFocus w2) →
     fst (normalize w1) = fst (normalize w2)) ∧
  (toBoolean opts.["readOnly"] = true → fst (normalize w1) = fst (normalize w2)).
Proof.
  split; intros Heq; apply createInternalEditorOptions_same_toggle.
  - by rewrite Heq.
  - by rewrite Heq.
Qed.

Lemma normalization_deterministic_given_tabFocus_witness :
  let normalize :=
    InternalEditorOptionsHelper.createInternalEditorOptions (H := Sample.ext)
      1200 800 (Sample.options [("wordWrap", VStr "on")]) (Sample.Font 28 10)
      "monaco-editor" false 1 true 1 in
  let w1 := Sample.world true in
  let w2 := {| world_TabFocus := TabFocus.mk true (Emitter.mk [5%positive]);
               world_GlobalScreenReaderNVDA :=
                 GlobalScreenReaderNVDA.mk true (Emitter.mk [7%positive]) |} in
  fst (normalize w1) = fst (normalize w2).
Proof.
  apply (proj1 (normalization_deterministic_given_tabFocus (H := Sample.ext)
           1200 800 (Sample.options [("wordWrap", VStr "on")]) (Sample.Font 28 10)
           "monaco-editor" false 1 true 1 (Sample.world true)
           {| world_TabFocus := TabFocus.mk true (Emitter.mk [5%positive]);
              world_GlobalScreenReaderNVDA :=
                GlobalScreenReaderNVDA.mk true (Emitter.mk [7%positive]) |})).
  reflexivity.
Defined.






(** ** The snapshot store *)

Section StoreProperties.
Context `{External}.

Lemma equals_true (a b : InternalEditorOptions.t) : equals a b = true ↔ a = b.
Proof. unfold equals. apply bool_decide_eq_true. Qed.

(** A flag of the change event is set exactly when its field or group
    differs, and the snapshots differ exactly when some flag is set. *)
Lemma createChangeEvent_marks (a b : InternalEditorOptions.t) :
  let e := createChangeEvent a b in
  (IConfigurationChangedEvent.lineHeight e = true
     ↔ InternalEditorOptions.lineHeight a ≠ InternalEditorOptions.lineHeight b) ∧
  (IConfigurationChangedEvent.readOnly e = true
     ↔ InternalEditorOptions.readOnly a ≠ InternalEditorOptions.readOnly b) ∧
  (IConfigurationChangedEvent.wordSeparators e = true
     ↔ InternalEditorOptions.wordSeparators a ≠ InternalEditorOptions.wordSeparators b) ∧
  (IConfigurationChangedEvent.autoClosingBrackets e = true
     ↔ InternalEditorOptions.autoClosingBrackets a
       ≠ InternalEditorOptions.autoClosingBrackets b) ∧
  (IConfigurationChangedEvent.useTabStops e = true
     ↔ InternalEditorOptions.useTabStops a ≠ InternalEditorOptions.useTabStops b) ∧
  (IConfigurationChangedEvent.tabFocusMode e = true
     ↔ InternalEditorOptions.tabFocusMode a ≠ InternalEditorOptions.tabFocusMode b) ∧
  (IConfigurationChangedEvent.dragAndDrop e = true
     ↔ InternalEditorOptions.dragAndDrop a ≠ InternalEditorOptions.dragAndDrop b) ∧
  (IConfigurationChangedEvent.layoutInfo e = true
     ↔ InternalEditorOptions.layoutInfo a ≠ InternalEditorOptions.layoutInfo b) ∧
  (IConfigurationChangedEvent.fontInfo e = true
     ↔ InternalEditorOptions.fontInfo a ≠ InternalEditorOptions.fontInfo b) ∧
  (IConfigurationChangedEvent.viewInfo e = true
     ↔ InternalEditorOptions.viewInfo a ≠ InternalEditorOptions.viewInfo b) ∧
  (IConfigurationChangedEvent.wrappingInfo e = true
     ↔ InternalEditorOptions.wrappingInfo a ≠ InternalEditorOptions.wrappingInfo b) ∧
  (IConfigurationChangedEvent.contribInfo e = true
     ↔ InternalEditorOptions.contribInfo a ≠ InternalEditorOptions.contribInfo b).
Proof.
  unfold createChangeEvent. simpl.
  repeat split; try (by intros ?%bool_decide_eq_true); by apply bool_decide_eq_true.
Qed.

Lemma createChangeEvent_some_flag (a b : InternalEditorOptions.t) :
  let e := createChangeEvent a b in
  a ≠ b ↔
  IConfigurationChangedEvent.lineHeight e || IConfigurationChangedEvent.readOnly e
  || IConfigurationChangedEvent.wordSeparators e
  || IConfigurationChangedEvent.autoClosingBrackets e
  || IConfigurationChangedEvent.useTabStops e || IConfigurationChangedEvent.tabFocusMode e
  || IConfigurationChangedEvent.dragAndDrop e || IConfigurationChangedEvent.layoutInfo e
  || IConfigurationChangedEvent.fontInfo e || IConfigurationChangedEvent.viewInfo e
  || IConfigurationChangedEvent.wrappingInfo e || IConfigurationChangedEvent.contribInfo e
  = true.
Proof.
  destruct a as [a1 a2 a3 a4 a5 a6 a7 a8 a9 a10 a11 a12],
           b as [b1 b2 b3 b4 b5 b6 b7 b8 b9 b10 b11 b12].
  unfold createChangeEvent. simpl.
  repeat first
    [ match goal with
      | |- context [bool_decide (?x ≠ ?y)] =>
          destruct (decide (x = y)) as [-> | Hne];
          [ rewrite (bool_decide_eq_false_2 (y ≠ y)) by (intros Hyy; by apply Hyy); simpl
          | rewrite (bool_decide_eq_true_2 (x ≠ y)) by done; simpl;
            split; [done | intros _ [=]; done] ]
      end ].
  split; [done | discriminate].
Qed.

End StoreProperties.

Section StoreSteps.
Context `{External}.
Import CommonEditorConfiguration.

Lemma _computeInternalOptions_world (h : Host.t) opts dominated digits (w : World) :
  snd (_computeInternalOptions h opts dominated digits w) = w.
Proof. unfold _computeInternalOptions. apply createInternalEditorOptions_world. Qed.

Lemma _setOptions_same (newOptions : InternalEditorOptions.t) (c : t) :
  editor c = newOptions → _setOptions newOptions c = (c, []).
Proof.
  intros Heq. unfold _setOptions.
  by rewrite (proj2 (equals_true _ _) Heq).
Qed.

Lemma _setOptions_differs (newOptions : InternalEditorOptions.t) (c : t) :
  editor c ≠ newOptions →
  _setOptions newOptions c
  = (mk newOptions (clone newOptions) (_configWithDefaults c)
        (_isDominatedByLongLines c) (_lineNumbersDigitCount c),
     [DidChange (createChangeEvent (editor c) newOptions)]).
Proof.
  intros Hne. unfold _setOptions.
  destruct (equals (editor c) newOptions) eqn:E; [| done].
  by apply equals_true in E.
Qed.

(** A recomputation is one normalization pass followed by [_setOptions]
    on its result; the process-wide state comes back unchanged. *)
Lemma _recomputeOptions_run (h : Host.t) (c : t) (w : World) :
  let newOptions :=
    fst (_computeInternalOptions h (_configWithDefaults c)
           (_isDominatedByLongLines c) (_lineNumbersDigitCount c) w) in
  _recomputeOptions h c w
  = (fst (_setOptions newOptions c),
     Recomputed newOptions :: snd (_setOptions newOptions c), w).
Proof.
  intros newOptions. unfold _recomputeOptions, Proc_bind, Proc_ret.
  pose proof (_computeInternalOptions_world h (_configWithDefaults c)
                (_isDominatedByLongLines c) (_lineNumbersDigitCount c) w) as Hw.
  subst newOptions.
  destruct (_computeInternalOptions h _ _ _ w) as [o w']. simpl in *. subst w'.
  by destruct (_setOptions o c).
Qed.

End StoreSteps.

(** C1, as the spec states it, fails: after a change the store holds the
    new snapshot and a clone of the new snapshot; nothing in it refers to
    the old one. *)
Lemma setOptions_keeps_no_previous_snapshot :
  let c := fst (CommonEditorConfiguration.new (H := Sample.ext) Sample.host
                  (Sample.options []) 1%positive (Sample.world false)) in
  let '(c', effects, _) :=
    CommonEditorConfiguration.setIsDominatedByLongLines Sample.host true c
      (Sample.world false) in
  (∃ e, effects = [CommonEditorConfiguration.Recomputed (CommonEditorConfiguration.editor c');
                   CommonEditorConfiguration.DidChange e]) ∧
  CommonEditorConfiguration.editor c' ≠ CommonEditorConfiguration.editor c ∧
  CommonEditorConfiguration.editorClone c' ≠ CommonEditorConfiguration.editor c.
Proof.
  set (c := fst (CommonEditorConfiguration.new Sample.host (Sample.options [])
                   1%positive (Sample.world false))).
  assert (∀ o : @InternalEditorOptions.t Sample.ext,
            EditorWrappingInfo.isViewportWrapping (InternalEditorOptions.wrappingInfo o) = true →
            o ≠ CommonEditorConfiguration.editor c) as Hne.
  { intros o Ho Heq. rewrite Heq in Ho. vm_compute in Ho. discriminate. }
  unfold CommonEditorConfiguration.setIsDominatedByLongLines.
  rewrite _recomputeOptions_run.
  rewrite _setOptions_differs by (apply not_eq_sym, Hne; reflexivity).
  cbn [fst snd CommonEditorConfiguration.editor CommonEditorConfiguration.editorClone].
  split; [eexists; reflexivity |].
  split; apply Hne; reflexivity.
Qed.

(** C1, amended.  On every recomputation the change event fires if and
    only if the newly computed snapshot differs, by exact structural
    equality, from the current one.  When it is equal the store is
    unchanged and no event is emitted.  When it differs, the new snapshot
    replaces the current one, [editorClone] becomes a clone of the new
    snapshot, the other fields of the store stay, and exactly one change
    event is emitted, whose flags mark exactly the top-level fields and
    groups that differ, at least one of them. *)
Theorem setOptions_equality_gated `{External}
    (newOptions : InternalEditorOptions.t) (c : CommonEditorConfiguration.t) :
  let old := CommonEditorConfiguration.editor c in
  (equals old newOptions = true ↔ old = newOptions) ∧
  (old = newOptions → CommonEditorConfiguration._setOptions newOptions c = (c, [])) ∧
  (old ≠ newOptions →
     let '(c', effects) := CommonEditorConfiguration._setOptions newOptions c in
     let e := createChangeEvent old newOptions in
     CommonEditorConfiguration.editor c' = newOptions ∧
     CommonEditorConfiguration.editorClone c' = clone newOptions ∧
     CommonEditorConfiguration._configWithDefaults c'
       = CommonEditorConfiguration._configWithDefaults c ∧
     CommonEditorConfiguration._isDominatedByLongLines c'
       = CommonEditorConfiguration._isDominatedByLongLines c ∧
     CommonEditorConfiguration._lineNumbersDigitCount c'
       = CommonEditorConfiguration._lineNumbersDigitCount c ∧
     effects = [CommonEditorConfiguration.DidChange e] ∧
     (IConfigurationChangedEvent.lineHeight e = true
        ↔ InternalEditorOptions.lineHeight old ≠ InternalEditorOptions.lineHeight newOptions) ∧
     (IConfigurationChangedEvent.readOnly e = true
        ↔ InternalEditorOptions.readOnly old ≠ InternalEditorOptions.readOnly newOptions) ∧
     (IConfigurationChangedEvent.wordSeparators e = true
        ↔ InternalEditorOptions.wordSeparators old
          ≠ InternalEditorOptions.wordSeparators newOptions) ∧
     (IConfigurationChangedEvent.autoClosingBrackets e = true
        ↔ InternalEditorOptions.autoClosingBrackets old
          ≠ InternalEditorOptions.autoClosingBrackets newOptions) ∧
     (IConfigurationChangedEvent.useTabStops e = true
        ↔ InternalEditorOptions.useTabStops old ≠ InternalEditorOptions.useTabStops newOptions) ∧
     (IConfigurationChangedEvent.tabFocusMode e = true
        ↔ InternalEditorOptions.tabFocusMode old ≠ InternalEditorOptions.tabFocusMode newOptions) ∧
     (IConfigurationChangedEvent.dragAndDrop e = true
        ↔ InternalEditorOptions.dragAndDrop old ≠ InternalEditorOptions.dragAndDrop newOptions) ∧
     (IConfigurationChangedEvent.layoutInfo e = true
        ↔ InternalEditorOptions.layoutInfo old ≠ InternalEditorOptions.layoutInfo newOptions) ∧
     (IConfigurationChangedEvent.fontInfo e = true
        ↔ InternalEditorOptions.fontInfo old ≠ InternalEditorOptions.fontInfo newOptions) ∧
     (IConfigurationChangedEvent.viewInfo e = true
        ↔ InternalEditorOptions.viewInfo old ≠ InternalEditorOptions.viewInfo newOptions) ∧
     (IConfigurationChangedEvent.wrappingInfo e = true
        ↔ InternalEditorOptions.wrappingInfo old ≠ InternalEditorOptions.wrappingInfo newOptions) ∧
     (IConfigurationChangedEvent.contribInfo e = true
        ↔ InternalEditorOptions.contribInfo old ≠ InternalEditorOptions.contribInfo newOptions) ∧
     IConfigurationChangedEvent.lineHeight e || IConfigurationChangedEvent.readOnly e
     || IConfigurationChangedEvent.wordSeparators e
     || IConfigurationChangedEvent.autoClosingBrackets e
     || IConfigurationChangedEvent.useTabStops e || IConfigurationChangedEvent.tabFocusMode e
     || IConfigurationChangedEvent.dragAndDrop e || IConfigurationChangedEvent.layoutInfo e
     || IConfigurationChangedEvent.fontInfo e || IConfigurationChangedEvent.viewInfo e
     || IConfigurationChangedEvent.wrappingInfo e || IConfigurationChangedEvent.contribInfo e
     = true) ∧
  (∀ (h : Host.t) (w : World),
     let computed :=
       fst (CommonEditorConfiguration._computeInternalOptions h
              (CommonEditorConfiguration._configWithDefaults c)
              (CommonEditorConfiguration._isDominatedByLongLines c)
              (CommonEditorConfiguration._lineNumbersDigitCount c) w) in
     let '(c', effects, w') := CommonEditorConfiguration._recomputeOptions h c w in
     w' = w ∧
     c' = fst (CommonEditorConfiguration._setOptions computed c) ∧
     ((∃ e, CommonEditorConfiguration.DidChange e ∈ effects) ↔ old ≠ computed) ∧
     (old = computed → effects = [CommonEditorConfiguration.Recomputed computed]) ∧
     (old ≠ computed →
        effects = [CommonEditorConfiguration.Recomputed computed;
                   CommonEditorConfiguration.DidChange (createChangeEvent old computed)])).
Proof.
  intros old. split; [apply equals_true |].
  split; [apply _setOptions_same |].
  split.
  - intros Hne. rewrite _setOptions_differs by done. cbv zeta.
    repeat (split; [reflexivity |]).
    pose proof (createChangeEvent_marks old newOptions) as Hmarks.
    pose proof (proj1 (createChangeEvent_some_flag old newOptions) Hne) as Hflag.
    cbv zeta in Hmarks, Hflag.
    repeat (destruct Hmarks as [? Hmarks]; split; [assumption |]).
    split; assumption.
  - intros h w computed.
    rewrite _recomputeOptions_run. fold computed.
    split; [reflexivity |]. split; [reflexivity |].
    destruct (decide (old = computed)) as [Heq | Hne].
    + rewrite _setOptions_same by done. simpl.
      split; [| split; [done | done]].
      split; [| done].
      intros [e He]. apply list_elem_of_singleton in He. discriminate.
    + rewrite _setOptions_differs by done. simpl.
      split; [| split; [done | done]].
      split; [done |]. intros _. eexists. rewrite !elem_of_cons. right. left. reflexivity.
Qed.

Lemma setOptions_equality_gated_witness :
  let c := fst (CommonEditorConfiguration.new (H := Sample.ext) Sample.host
                  (Sample.options []) 1%positive (Sample.world false)) in
  let old := CommonEditorConfiguration.editor c in
  let newOptions :=
    fst (CommonEditorConfiguration._computeInternalOptions (H := Sample.ext) Sample.host
           (Sample.options []) true 1 (Sample.world false)) in
  CommonEditorConfiguration._setOptions old c = (c, []) ∧
  (let '(c', effects) := CommonEditorConfiguration._setOptions newOptions c in
   CommonEditorConfiguration.editor c' = newOptions ∧
   effects = [CommonEditorConfiguration.DidChange (createChangeEvent old newOptions)]).
Proof.
  intros c old newOptions.
  split.
  - apply (proj1 (proj2 (setOptions_equality_gated (H := Sample.ext) old c))).
    reflexivity.
  - pose proof (proj1 (proj2 (proj2
        (setOptions_equality_gated (H := Sample.ext) newOptions c)))) as Hdiff.
    cbv zeta in Hdiff.
    assert (CommonEditorConfiguration.editor c ≠ newOptions) as Hne.
    { intros Heq.
      apply (f_equal (fun o => EditorWrappingInfo.isViewportWrapping
                                 (InternalEditorOptions.wrappingInfo o))) in Heq.
      vm_compute in Heq. discriminate. }
    specialize (Hdiff Hne).
    destruct (CommonEditorConfiguration._setOptions newOptions c) as [c' effects].
    destruct Hdiff as (Heditor & _ & _ & _ & _ & Heffects & _).
    split; assumption.
Defined.

(** C7.  [setMaxLineNumber(n)], for a line number [n >= 0] with [d]
    decimal digits, runs a recomputation if and only if [d] differs from
    the stored digit count.  When it is the same the call is a complete
    no-op: same store, no effect, same process-wide state.  When it
    differs the digit count is stored and the recomputation runs.  So in a
    store whose digit count is 1, [setMaxLineNumber(5)] and
    [setMaxLineNumber(9)] do nothing, and [setMaxLineNumber(10)]
    recomputes, with the digit count 2. *)
Theorem setMaxLineNumber_recomputes_iff_digit_count_changes `{External}
    (h : Host.t) (c : CommonEditorConfiguration.t) (w : World) (n : Z) :
  let stored := CommonEditorConfiguration._lineNumbersDigitCount c in
  let with_digits d :=
    CommonEditorConfiguration.mk
      (CommonEditorConfiguration.editor c) (CommonEditorConfiguration.editorClone c)
      (CommonEditorConfiguration._configWithDefaults c)
      (CommonEditorConfiguration._isDominatedByLongLines c) d in
  (0 ≤ n →
   ∃ d : Z,
     (∀ fuel : nat, d < Z.of_nat fuel → digitCount fuel n = Some d) ∧
     ∀ fuel : nat, d < Z.of_nat fuel →
       (d = stored →
          CommonEditorConfiguration.setMaxLineNumber fuel h n c w = Some (c, [], w)) ∧
       (d ≠ stored →
          CommonEditorConfiguration.setMaxLineNumber fuel h n c w
          = Some (CommonEditorConfiguration._recomputeOptions h (with_digits d) w)) ∧
       ∃ c' effects w',
         CommonEditorConfiguration.setMaxLineNumber fuel h n c w = Some (c', effects, w') ∧
         w' = w ∧
         CommonEditorConfiguration._lineNumbersDigitCount c' = d ∧
         ((∃ o, CommonEditorConfiguration.Recomputed o ∈ effects) ↔ d ≠ stored)) ∧
  (stored = 1 →
   CommonEditorConfiguration.setMaxLineNumber 3 h 5 c w = Some (c, [], w) ∧
   CommonEditorConfiguration.setMaxLineNumber 3 h 9 c w = Some (c, [], w) ∧
   ∃ c' o effects,
     CommonEditorConfiguration.setMaxLineNumber 3 h 10 c w
     = Some (c', CommonEditorConfiguration.Recomputed o :: effects, w) ∧
     CommonEditorConfiguration._lineNumbersDigitCount c' = 2).
Proof.
  intros stored with_digits.
  assert (∀ d, CommonEditorConfiguration._lineNumbersDigitCount
                 (fst (fst (CommonEditorConfiguration._recomputeOptions h (with_digits d) w)))
               = d) as Hstored.
  { intros d. rewrite _recomputeOptions_run. cbn [fst].
    unfold CommonEditorConfiguration._setOptions.
    by destruct (equals _ _). }
  split.
  - intros Hn.
    destruct (digitCount_nonneg n Hn) as (d & _ & _ & _ & Hrun).
    exists d. split; [exact Hrun |].
    intros fuel Hfuel. unfold CommonEditorConfiguration.setMaxLineNumber.
    rewrite (Hrun fuel Hfuel). simpl. fold stored.
    destruct (Z.eqb_spec stored d) as [Heq | Hne].
    + split; [done |]. split; [intros Hd; by subst |].
      exists c, [], w. repeat split; try done.
      intros [o Ho]. by apply elem_of_nil in Ho.
    + split; [intros Hd; by subst |]. split; [done |].
      fold (with_digits d).
      pose proof (Hstored d) as Hd. rewrite _recomputeOptions_run in Hd |- *.
      eexists _, _, _. split; [reflexivity |].
      split; [reflexivity |]. split; [exact Hd |].
      split; [intros _ Hd'; by subst |].
      intros _. eexists. apply elem_of_cons. left. reflexivity.
  - intros Hone. unfold CommonEditorConfiguration.setMaxLineNumber. simpl.
    fold stored. rewrite Hone. simpl. fold (with_digits 2).
    split; [done |]. split; [done |].
    pose proof (Hstored 2) as Hd. rewrite _recomputeOptions_run in Hd |- *.
    eexists _, _, _. split; [reflexivity | exact Hd].
Qed.

Lemma setMaxLineNumber_recomputes_iff_digit_count_changes_witness :
  let c := fst (CommonEditorConfiguration.new (H := Sample.ext) Sample.host
                  (Sample.options []) 1%positive (Sample.world false)) in
  let w := Sample.world false in
  (∃ d : Z, ∀ fuel : nat, d < Z.of_nat fuel → digitCount fuel 1234 = Some d) ∧
  CommonEditorConfiguration.setMaxLineNumber 3 Sample.host 5 c w = Some (c, [], w) ∧
  CommonEditorConfiguration.setMaxLineNumber 3 Sample.host 9 c w = Some (c, [], w) ∧
  ∃ c' o effects,
    CommonEditorConfiguration.setMaxLineNumber 3 Sample.host 10 c w
    = Some (c', CommonEditorConfiguration.Recomputed o :: effects, w) ∧
    CommonEditorConfiguration._lineNumbersDigitCount c' = 2.
Proof.
  intros c w.
  pose proof (setMaxLineNumber_recomputes_iff_digit_count_changes
                (H := Sample.ext) Sample.host c w 1234) as [Hgeneral Hscenario].
  split.
  - destruct Hgeneral as (d & Hd & _); [lia |]. exists d. exact Hd.
  - apply Hscenario. reflexivity.
Defined.

(** * Further properties of the coercers *)

Section CoercerFacts.

Lemma toInteger_in_bounds (source : value) (minimum maximum : Z) :
  minimum ≤ maximum → - 2 ^ 31 ≤ minimum → maximum < 2 ^ 31 →
  minimum ≤ toInteger source minimum maximum ≤ maximum.
Proof.
  intros Hle Hlo Hhi. unfold toInteger. rewrite to_int32_small; lia.
Qed.

Lemma parse_digits_stop (rest : string) (acc : option Z) :
  (∀ c rest', rest = String c rest' → JS.digit_of c = None) →
  JS.parse_digits rest acc = acc.
Proof.
  intros Hrest. destruct rest as [| c rest']; [reflexivity |].
  simpl. by rewrite (Hrest c rest' eq_refl).
Qed.

Lemma pretty_N_go_app (x : N) (s rest : string) :
  pretty_N_go x s +:+ rest = pretty_N_go x (s +:+ rest).
Proof.
  revert s. induction (N.lt_wf_0 x) as [x _ IH]. intros s.
  destruct (decide (x = 0)%N) as [-> | Hnz].
  - by rewrite !pretty_N_go_0.
  - rewrite !(pretty_N_go_step x) by lia.
    rewrite IH by (apply N.div_lt; lia). reflexivity.
Qed.

Lemma parseInt_string_pretty_N_suffix (x : N) (rest : string) :
  Z.of_N x < 2 ^ 53 →
  (∀ c rest', rest = String c rest' → JS.digit_of c = None) →
  JS.parseInt_string (pretty x +:+ rest) = Some (Z.of_N x).
Proof.
  intros Hx Hrest. unfold pretty, pretty_N. case_decide as Hz.
  - subst x. change ("0" +:+ rest) with (String "0"%char rest).
    unfold JS.parseInt_string. simpl JS.trim_left. cbv iota beta.
    simpl. by rewrite parse_digits_stop.
  - rewrite pretty_N_go_app. change ("" +:+ rest) with rest.
    destruct (pretty_N_go_head x rest) as (d & tl & Hd & Heq); [lia |].
    rewrite Heq, parseInt_string_digit, <- Heq by done.
    rewrite parse_digits_pretty_N_go by lia.
    rewrite parse_digits_stop by done. simpl.
    unfold JS.nearest_double_nonneg.
    destruct (Z.ltb_spec (Z.of_N x) (2 ^ 53)); [| lia].
    f_equal. lia.
Qed.

Lemma parseInt_pretty_suffix (z : Z) (rest : string) :
  - 2 ^ 53 < z < 2 ^ 53 →
  (∀ c rest', rest = String c rest' → JS.digit_of c = None) →
  JS.parseInt (VStr (pretty z +:+ rest)) = Some z.
Proof.
  intros Hz Hrest. unfold JS.parseInt. simpl JS.ToString. destruct z as [| p | p].
  - apply (parseInt_string_pretty_N_suffix 0%N); [lia | done].
  - apply (parseInt_string_pretty_N_suffix (Npos p)); [lia | done].
  - change (pretty (Z.neg p) +:+ rest) with (String "-" (pretty (Npos p) +:+ rest)).
    pose proof (parseInt_string_pretty_N_suffix (Npos p) rest ltac:(lia) Hrest) as Hpos.
    unfold pretty, pretty_N in *. case_decide as Hnz; [lia |].
    rewrite pretty_N_go_app in *. change ("" +:+ rest) with rest in *.
    unfold JS.parseInt_string. simpl JS.trim_left. cbv iota beta.
    rewrite parse_digits_pretty_N_go by lia.
    rewrite parse_digits_stop by done. simpl.
    unfold JS.nearest_double_nonneg.
    destruct (Z.ltb_spec (Z.pos p) (2 ^ 53)); [| lia].
    f_equal.
Qed.

End CoercerFacts.


(** X2.  With bounds that are 32-bit integers in order, [toInteger] lands
    within the bounds and coercing its result again changes nothing. *)
Theorem toInteger_idempotent (source : value) (minimum maximum : Z) :
  minimum ≤ maximum → - 2 ^ 31 ≤ minimum → maximum < 2 ^ 31 →
  toInteger (VNum (toInteger source minimum maximum)) minimum maximum
  = toInteger source minimum maximum.
Proof.
  intros Hle Hlo Hhi.
  pose proof (toInteger_in_bounds source minimum maximum Hle Hlo Hhi).
  apply toInteger_VNum; lia.
Qed.

Lemma toInteger_idempotent_witness :
  toInteger (VNum (toInteger (VStr "7 lanes") 0 3)) 0 3 = toInteger (VStr "7 lanes") 0 3.
Proof. apply toInteger_idempotent; lia. Defined.

(** X3.  [toInteger] reads the leading integer of a string and ignores
    what follows it: the decimal rendering of an integer [z] followed by
    anything that does not start with a digit coerces as [z] itself. *)
Theorem toInteger_ignores_suffix (z : Z) (rest : string) (minimum maximum : Z) :
  - 2 ^ 53 < z < 2 ^ 53 →
  (∀ c rest', rest = String c rest' → JS.digit_of c = None) →
  toInteger (VStr (pretty z +:+ rest)) minimum maximum
  = toInteger (VNum z) minimum maximum.
Proof.
  intros Hz Hrest. unfold toInteger.
  by rewrite parseInt_pretty_suffix, parseInt_VNum.
Qed.

Lemma toInteger_ignores_suffix_witness :
  toInteger (VStr "80px") 1 1000 = toInteger (VNum 80) 1 1000.
Proof.
  apply (toInteger_ignores_suffix 80 "px" 1 1000); [lia |].
  intros c rest' [= <- _]. reflexivity.
Defined.

Section DigitStrings.

Lemma N_of_ascii_pretty_N_char (d : N) :
  (d < 10)%N → N_of_ascii (pretty_N_char d) = (48 + d)%N.
Proof.
  intros Hd. destruct d as [| p]; [reflexivity |].
  do 4 (destruct p as [p | p |]; try reflexivity; try lia).
Qed.

Lemma compare_digit_head (rx ry : N) (s s' : string) :
  (rx < 10)%N → (ry < 10)%N →
  String.compare (String (pretty_N_char rx) s) (String (pretty_N_char ry) s')
  = match (rx ?= ry)%N with Eq => String.compare s s' | c => c end.
Proof.
  intros Hx Hy. simpl. unfold Ascii.compare.
  rewrite !N_of_ascii_pretty_N_char by done.
  destruct (N.compare_spec rx ry), (N.compare_spec (48 + rx) (48 + ry)); try lia;
    reflexivity.
Qed.

(** Renderings with the same number of digits compare as the numbers. *)
Lemma compare_pretty_N_go (k : nat) :
  ∀ (x y : N) (s s' : string),
    (10 ^ N.of_nat k ≤ x < 10 * 10 ^ N.of_nat k)%N →
    (10 ^ N.of_nat k ≤ y < 10 * 10 ^ N.of_nat k)%N →
    String.compare (pretty_N_go x s) (pretty_N_go y s')
    = match (x ?= y)%N with Eq => String.compare s s' | c => c end.
Proof.
  induction k as [| k IH]; intros x y s s' Hx Hy.
  - change (10 ^ N.of_nat 0)%N with 1%N in *.
    rewrite (pretty_N_go_step x), (pretty_N_go_step y) by lia.
    rewrite (N.div_small x), (N.div_small y), (N.mod_small x), (N.mod_small y) by lia.
    rewrite !pretty_N_go_0.
    apply compare_digit_head; lia.
  - rewrite Nat2N.inj_succ, N.pow_succ_r' in Hx, Hy.
    assert (0 < 10 ^ N.of_nat k)%N as HL0 by (apply N.neq_0_lt_0, N.pow_nonzero; lia).
    remember (10 ^ N.of_nat k)%N as L eqn:HL in *. clear HL.
    assert (x = 10 * x `div` 10 + x `mod` 10)%N as Hdx by (apply N.div_mod; lia).
    assert (y = 10 * y `div` 10 + y `mod` 10)%N as Hdy by (apply N.div_mod; lia).
    assert (x `mod` 10 < 10)%N as Hmx by (apply N.mod_lt; lia).
    assert (y `mod` 10 < 10)%N as Hmy by (apply N.mod_lt; lia).
    rewrite (pretty_N_go_step x), (pretty_N_go_step y) by lia.
    remember (x `div` 10)%N as qx eqn:Hqx in *. remember (x `mod` 10)%N as rx eqn:Hrx in *.
    remember (y `div` 10)%N as qy eqn:Hqy in *. remember (y `mod` 10)%N as ry eqn:Hry in *.
    clear Hqx Hrx Hqy Hry.
    rewrite IH by lia.
    rewrite compare_digit_head by done.
    destruct (N.compare_spec qx qy), (N.compare_spec rx ry), (N.compare_spec x y);
      try lia; reflexivity.
Qed.

Lemma pretty_Z_pos (z : Z) : 0 < z → pretty z = pretty_N_go (Z.to_N z) "".
Proof.
  intros Hz. destruct z as [| p | p]; try lia.
  unfold pretty, pretty_Z, pretty, pretty_positive, pretty, pretty_N.
  case_decide; [lia | reflexivity].
Qed.

(** The band of the non-negative integers with [k + 1] decimal digits. *)
Lemma sort_le_same_digits (k : nat) (x y : Z) :
  (10 ^ Z.of_nat k ≤ x < 10 * 10 ^ Z.of_nat k ∨ (k = 0%nat ∧ x = 0)) →
  (10 ^ Z.of_nat k ≤ y < 10 * 10 ^ Z.of_nat k ∨ (k = 0%nat ∧ y = 0)) →
  sort_le x y → x ≤ y.
Proof.
  intros Hx Hy. unfold sort_le. rewrite String_leb_le. simpl JS.ToString.
  assert (0 < 10 ^ Z.of_nat k) as Hpow by (apply Z.pow_pos_nonneg; lia).
  assert (Z.of_N (10 ^ N.of_nat k) = 10 ^ Z.of_nat k) as HL
    by (rewrite N2Z.inj_pow, nat_N_Z; reflexivity).
  destruct Hx as [Hx | [Hk Hx0]]; [| intros _; lia].
  destruct Hy as [Hy | [Hk Hy0]].
  - rewrite !pretty_Z_pos by lia.
    rewrite (compare_pretty_N_go k) by lia.
    destruct (N.compare_spec (Z.to_N x) (Z.to_N y)); try lia. done.
  - subst k y. change (10 ^ Z.of_nat 0) with 1 in Hx.
    rewrite (pretty_Z_pos x) by lia.
    rewrite (pretty_N_go_step (Z.to_N x)) by lia.
    rewrite N.div_small, N.mod_small, pretty_N_go_0 by lia.
    change (pretty 0) with (String (pretty_N_char 0) "").
    rewrite compare_digit_head by lia.
    destruct (N.compare_spec (Z.to_N x) 0); try lia. done.
Qed.

Lemma StronglySorted_weaken {A} (R R' : relation A) (P : A → Prop) (l : list A) :
  (∀ x y, P x → P y → R x y → R' x y) →
  Forall P l → StronglySorted R l → StronglySorted R' l.
Proof.
  intros Himpl HP Hsorted. induction Hsorted as [| a l Hl IH Ha]; [constructor |].
  apply Forall_cons in HP as [HPa HPl].
  constructor; [by apply IH |].
  rewrite Forall_forall in Ha, HPl |- *.
  intros y Hy. apply Himpl; auto.
Qed.

(** The digit-count loop counts the characters of the rendering. *)
Lemma digitCount_loop_length (x : N) :
  (0 < x)%N →
  ∃ d : nat, (0 < d)%nat ∧
    (∀ s, String.length (pretty_N_go x s) = (String.length s + d)%nat) ∧
    ∀ (fuel : nat) (r : Z), (d < fuel)%nat →
      digitCount_loop fuel (Z.of_N x) r = Some (r + Z.of_nat d).
Proof.
  induction (N.lt_wf_0 x) as [x _ IH]. intros Hx.
  assert (Z.of_N x / 10 = Z.of_N (x `div` 10)) as Hdiv by (rewrite N2Z.inj_div; reflexivity).
  destruct (decide (x `div` 10 = 0)%N) as [Hz | Hnz].
  - exists 1%nat. split; [lia |]. split.
    + intros s. rewrite pretty_N_go_step, Hz, pretty_N_go_0 by done. simpl. lia.
    + intros fuel r Hfuel. destruct fuel as [| fuel]; [lia |]. simpl.
      destruct (Z.eqb_spec (Z.of_N x) 0); [lia |].
      rewrite Hdiv, Hz. simpl Z.of_N.
      rewrite digitCount_loop_zero by lia. f_equal; lia.
  - destruct (IH (x `div` 10)%N) as (d & Hd & Hlen & Hrun);
      [apply N.div_lt; lia | by apply N.neq_0_lt_0 |].
    exists (S d). split; [lia |]. split.
    + intros s. rewrite pretty_N_go_step, Hlen by done. simpl. lia.
    + intros fuel r Hfuel. destruct fuel as [| fuel]; [lia |]. simpl.
      destruct (Z.eqb_spec (Z.of_N x) 0); [lia |].
      rewrite Hdiv, Hrun by lia. f_equal; lia.
Qed.

End DigitStrings.

(** X4.  When the coerced elements are non-negative and all have the same
    number of decimal digits, the string order of [Array.prototype.sort]
    is the numeric one, and [toSortedIntegerArray] returns them in
    ascending order. *)
Theorem toSortedIntegerArray_ascending_same_digits `{External}
    (elems : list value) (k : nat) :
  Forall (fun e => 10 ^ Z.of_nat k ≤ e < 10 * 10 ^ Z.of_nat k ∨ (k = 0%nat ∧ e = 0))
         (map toInteger_1 elems) →
  toSortedIntegerArray (VArr elems) ≡ₚ map toInteger_1 elems ∧
  Sorted Z.le (toSortedIntegerArray (VArr elems)).
Proof.
  intros Hband. unfold toSortedIntegerArray, Array_sort.
  split; [apply merge_sort_Permutation |].
  apply StronglySorted_Sorted.
  apply (StronglySorted_weaken sort_le Z.le
           (fun e => 10 ^ Z.of_nat k ≤ e < 10 * 10 ^ Z.of_nat k ∨ (k = 0%nat ∧ e = 0))).
  - intros x y. apply sort_le_same_digits.
  - by rewrite merge_sort_Permutation.
  - apply StronglySorted_merge_sort; apply _.
Qed.

Lemma toSortedIntegerArray_ascending_same_digits_witness :
  Sorted Z.le (@toSortedIntegerArray Sample.ext (VArr [VNum 99; VStr "80"; VNum 72])).
Proof.
  apply (toSortedIntegerArray_ascending_same_digits (H := Sample.ext)
           [VNum 99; VStr "80"; VNum 72] 1).
  simpl map.
  repeat (constructor; [left; vm_compute; split; [discriminate | reflexivity] |]).
  constructor.
Defined.

(** X5.  For a line number [n >= 0] the digit count is the number of
    characters of the decimal rendering of [n]. *)
Theorem digitCount_is_rendered_length (n : Z) (fuel : nat) :
  0 ≤ n → (String.length (pretty n) < fuel)%nat →
  digitCount fuel n = Some (Z.of_nat (String.length (pretty n))).
Proof.
  intros Hn Hfuel. destruct (decide (n = 0)) as [-> | Hnz].
  - unfold digitCount. rewrite digitCount_loop_zero by (simpl in Hfuel; lia). reflexivity.
  - rewrite pretty_Z_pos in * by lia.
    destruct (digitCount_loop_length (Z.to_N n)) as (d & Hd & Hlen & Hrun); [lia |].
    rewrite Hlen in *. simpl in *.
    unfold digitCount. replace n with (Z.of_N (Z.to_N n)) at 1 by lia.
    rewrite Hrun by lia. simpl.
    destruct (Z.eqb_spec (0 + Z.of_nat d) 0); [lia |]. f_equal; lia.
Qed.

Lemma digitCount_is_rendered_length_witness :
  digitCount 5 1234 = Some (Z.of_nat (String.length (pretty 1234))).
Proof.
  apply digitCount_is_rendered_length; [lia |]. vm_compute. lia.
Defined.

(** * Further properties of the normalizer *)

Section ChWidthFacts.

Lemma skip_digits_all_digits (a rest : string) :
  all_digits a = true → ChWidth.starts_with_digit rest = false →
  ChWidth.skip_digits (a +:+ rest) = rest.
Proof.
  intros Ha Hrest. induction a as [| c a IH]; simpl in *.
  - destruct rest as [| c rest]; [reflexivity |]. simpl in *. by rewrite Hrest.
  - apply andb_true_iff in Ha as [Hc Ha]. rewrite Hc. by apply IH.
Qed.

Lemma skip_digits_split (s : string) :
  ∃ a, all_digits a = true ∧ s = a +:+ ChWidth.skip_digits s ∧
       ChWidth.starts_with_digit (ChWidth.skip_digits s) = false ∧
       (ChWidth.starts_with_digit s = true → a ≠ "").
Proof.
  induction s as [| c s (a & Ha & Hs & Hrest & _)].
  - exists "". repeat split; try done.
  - simpl. destruct (ChWidth.is_digit c) eqn:Hc.
    + exists (String c a). simpl. rewrite Hc, Ha.
      split; [done |]. split; [change (String c s = String c (a +:+ ChWidth.skip_digits s)); by rewrite <- Hs |]. split; [done | done].
    + exists "". simpl. rewrite Hc. split; [done |]. split; [done |].
      split; [done | discriminate].
Qed.

Lemma starts_with_digit_app (a rest : string) :
  a ≠ "" → all_digits a = true → ChWidth.starts_with_digit (a +:+ rest) = true.
Proof.
  intros Hne Ha. destruct a as [| c a]; [done |]. simpl in *.
  by apply andb_true_iff in Ha as [Hc _].
Qed.

Lemma substring_prefix (s t : string) :
  String.substring 0 (String.length s) (s +:+ t) = s.
Proof.
  induction s as [| c s IH]; simpl.
  - by destruct t.
  - by rewrite IH.
Qed.

Lemma length_app_ch (s : string) :
  (String.length (s +:+ "ch") - 2)%nat = String.length s.
Proof.
  assert (String.length (s +:+ "ch") = S (S (String.length s))) as ->.
  { induction s as [| c s IH]; [reflexivity |].
    change (String c s +:+ "ch") with (String c (s +:+ "ch")). simpl. by rewrite IH. }
  simpl. lia.
Qed.

Lemma without_unit_ch (s : string) : ChWidth.without_unit (s +:+ "ch") = s.
Proof.
  unfold ChWidth.without_unit. rewrite length_app_ch. apply substring_prefix.
Qed.

End ChWidthFacts.

(** X6.  The test of the line-decoration width accepts exactly the
    strings made of one or more digits, optionally a dot and one or more
    digits, and the unit [ch]; cutting the last two characters off such a
    string gives back the number part. *)
Theorem ChWidth_test_shape (s : string) :
  (ChWidth.test s = true ↔
     ∃ a, a ≠ "" ∧ all_digits a = true ∧
       (s = a +:+ "ch" ∨
        ∃ b, b ≠ "" ∧ all_digits b = true ∧ s = a +:+ "." +:+ b +:+ "ch")) ∧
  (∀ num, s = num +:+ "ch" → ChWidth.without_unit s = num).
Proof.
  split; [| intros num ->; apply without_unit_ch].
  unfold ChWidth.test. split.
  - intros Htest. apply andb_true_iff in Htest as [Hstart Hrest].
    destruct (skip_digits_split s) as (a & Ha & Hs & _ & Hne).
    exists a. split; [by apply Hne |]. split; [done |].
    apply orb_true_iff in Hrest as [Hch | Hdot].
    + left. apply String.eqb_eq in Hch. by rewrite Hch in Hs.
    + right. destruct (ChWidth.skip_digits s) as [| c r'] eqn:Hskip; [done |].
      destruct (Ascii.eqb_spec c ".") as [-> | Hc].
      * apply andb_true_iff in Hdot as [Hstart' Hch].
        destruct (skip_digits_split r') as (b & Hb & Hr' & _ & Hbne).
        apply String.eqb_eq in Hch. rewrite Hch in Hr'.
        exists b. split; [by apply Hbne |]. split; [done |].
        rewrite Hs. simpl. by rewrite <- Hr'.
      * exfalso. clear - Hdot Hc.
        destruct c as [[] [] [] [] [] [] [] []]; try done.
  - intros (a & Hne & Ha & [-> | (b & Hbne & Hb & ->)]).
    + rewrite starts_with_digit_app by done.
      rewrite skip_digits_all_digits by done. reflexivity.
    + rewrite starts_with_digit_app by done.
      rewrite skip_digits_all_digits by (done || reflexivity).
      change ("." +:+ b +:+ "ch") with (String "."%char (b +:+ "ch")). cbv iota beta.
      rewrite starts_with_digit_app by done.
      rewrite skip_digits_all_digits by done. reflexivity.
Qed.

Lemma ChWidth_test_shape_witness :
  ChWidth.test "1.5ch" = true ∧ ChWidth.without_unit "1.5ch" = "1.5".
Proof.
  pose proof (ChWidth_test_shape "1.5ch") as [Hshape Hcut].
  split.
  - apply Hshape. exists "1". split; [done |]. split; [reflexivity |].
    right. exists "5". split; [done |]. split; reflexivity.
  - apply (Hcut "1.5"). reflexivity.
Defined.

Ltac normalizer_field :=
  unfold InternalEditorOptionsHelper.createInternalEditorOptions;
  destruct (InternalEditorOptionsHelper.lineNumbersInfo _) as [[? ?] ?];
  reflexivity.

Section SnapshotFields.
Context `{External}.

Lemma createInternalEditorOptions_viewInfo_lineNumbers
    outerWidth outerHeight opts fontInfo editorClassName isDominatedByLongLines
    lineNumbersDigitCount canUseTranslate3d pixelRatio (w : World) :
  let v := InternalEditorOptions.viewInfo
             (fst (InternalEditorOptionsHelper.createInternalEditorOptions
                     outerWidth outerHeight opts fontInfo editorClassName
                     isDominatedByLongLines lineNumbersDigitCount canUseTranslate3d
                     pixelRatio w)) in
  (InternalEditorViewOptions.renderLineNumbers v,
   InternalEditorViewOptions.renderCustomLineNumbers v,
   InternalEditorViewOptions.renderRelativeLineNumbers v)
  = InternalEditorOptionsHelper.lineNumbersInfo opts.
Proof.
  unfold InternalEditorOptionsHelper.createInternalEditorOptions.
  destruct (InternalEditorOptionsHelper.lineNumbersInfo opts) as [[? ?] ?].
  reflexivity.
Qed.

Lemma createInternalEditorOptions_numbers
    outerWidth outerHeight opts fontInfo editorClassName isDominatedByLongLines
    lineNumbersDigitCount canUseTranslate3d pixelRatio (w : World) :
  let v := InternalEditorOptions.viewInfo
             (fst (InternalEditorOptionsHelper.createInternalEditorOptions
                     outerWidth outerHeight opts fontInfo editorClassName
                     isDominatedByLongLines lineNumbersDigitCount canUseTranslate3d
                     pixelRatio w)) in
  InternalEditorViewOptions.overviewRulerLanes v = toInteger opts.["overviewRulerLanes"] 0 3 ∧
  InternalEditorViewOptions.revealHorizontalRightPadding v
    = toInteger_2 opts.["revealHorizontalRightPadding"] 0 ∧
  InternalEditorViewOptions.stopRenderingLineAfter v
    = (if negb (JS.is_undefined opts.["stopRenderingLineAfter"])
       then toInteger_2 opts.["stopRenderingLineAfter"] (-1) else 10000) ∧
  InternalEditorViewOptions.minimap v
    = InternalEditorOptionsHelper._sanitizeMinimapOpts (minimap opts) ∧
  InternalEditorViewOptions.scrollbar v
    = InternalEditorOptionsHelper._sanitizeScrollbarOpts (scrollbar opts)
        (toFloat opts.["mouseWheelScrollSensitivity"] (number_of_int 1)) ∧
  InternalEditorViewOptions.canUseTranslate3d v = canUseTranslate3d ∧
  InternalEditorViewOptions.editorClassName v = editorClassName ∧
  InternalEditorViewOptions.disableMonospaceOptimizations v
    = toBoolean opts.["disableMonospaceOptimizations"] || toBoolean opts.["fontLigatures"].
Proof.
  unfold InternalEditorOptionsHelper.createInternalEditorOptions.
  destruct (InternalEditorOptionsHelper.lineNumbersInfo opts) as [[? ?] ?].
  repeat split; reflexivity.
Qed.

Lemma createInternalEditorOptions_folding
    outerWidth outerHeight opts fontInfo editorClassName isDominatedByLongLines
    lineNumbersDigitCount canUseTranslate3d pixelRatio (w : World) :
  EditorContribOptions.folding
    (InternalEditorOptions.contribInfo
       (fst (InternalEditorOptionsHelper.createInternalEditorOptions
               outerWidth outerHeight opts fontInfo editorClassName
               isDominatedByLongLines lineNumbersDigitCount canUseTranslate3d
               pixelRatio w)))
  = toBoolean opts.["folding"].
Proof. normalizer_field. Qed.

Lemma toInteger_2_in_bounds (source : value) (minimum : Z) :
  minimum ≤ MAX_SAFE_SMALL_INTEGER → - 2 ^ 31 ≤ minimum → MAX_SAFE_SMALL_INTEGER < 2 ^ 31 →
  minimum ≤ toInteger_2 source minimum ≤ MAX_SAFE_SMALL_INTEGER.
Proof. intros. unfold toInteger_2. by apply toInteger_in_bounds. Qed.

End SnapshotFields.

(** X7.  The line-decoration width gets the allowance of 16 for the
    folding affordance exactly when [opts.folding] is truthy, whatever the
    source of the width, while the snapshot's [folding] flag is
    [toBoolean(opts.folding)]: the two disagree, allowance added and flag
    [false], exactly for the string ["false"]. *)
Theorem folding_allowance `{External}
    outerWidth outerHeight opts fontInfo editorClassName isDominatedByLongLines
    lineNumbersDigitCount canUseTranslate3d pixelRatio (w : World) :
  let width := InternalEditorOptionsHelper.lineDecorationsWidth opts fontInfo in
  let base :=
    InternalEditorOptionsHelper.lineDecorationsWidth
      (set_prop "folding" VUndefined opts) fontInfo in
  let flag :=
    EditorContribOptions.folding
      (InternalEditorOptions.contribInfo
         (fst (InternalEditorOptionsHelper.createInternalEditorOptions
                 outerWidth outerHeight opts fontInfo editorClassName
                 isDominatedByLongLines lineNumbersDigitCount canUseTranslate3d
                 pixelRatio w))) in
  width = (if JS.truthy opts.["folding"]
           then number_add base (number_of_int 16) else base) ∧
  flag = toBoolean opts.["folding"] ∧
  (JS.truthy opts.["folding"] = true ∧ flag = false ↔ opts.["folding"] = VStr "false").
Proof.
  intros width base flag. subst width base flag.
  rewrite createInternalEditorOptions_folding.
  split; [| split; [reflexivity |]].
  - unfold InternalEditorOptionsHelper.lineDecorationsWidth.
    rewrite get_set_prop_eq. rewrite !get_set_prop_ne by (intros [=]).
    simpl JS.truthy. cbv iota. reflexivity.
  - split.
    + intros [Htruthy Hflag].
      destruct (opts.["folding"]) as [| | [|] | n | s | | |]; try done.
      * unfold toBoolean in Hflag. simpl in *. congruence.
      * unfold toBoolean in Hflag. simpl in *.
        destruct (String.eqb_spec s "false") as [-> | Hne]; [done |]. congruence.
    + intros ->. done.
Qed.

(** X8.  In every snapshot, relative line numbers are rendered line
    numbers without a custom renderer; a custom renderer is the function
    given as [lineNumbers], with rendered, not relative, line numbers; and
    line numbers are not rendered exactly when [lineNumbers] is none of
    [true], ['on'], ['relative'] and a function. *)
Theorem lineNumbers_resolution `{External}
    outerWidth outerHeight opts fontInfo editorClassName isDominatedByLongLines
    lineNumbersDigitCount canUseTranslate3d pixelRatio (w : World) :
  let v := InternalEditorOptions.viewInfo
             (fst (InternalEditorOptionsHelper.createInternalEditorOptions
                     outerWidth outerHeight opts fontInfo editorClassName
                     isDominatedByLongLines lineNumbersDigitCount canUseTranslate3d
                     pixelRatio w)) in
  (InternalEditorViewOptions.renderRelativeLineNumbers v = true →
     InternalEditorViewOptions.renderLineNumbers v = true ∧
     InternalEditorViewOptions.renderCustomLineNumbers v = None ∧
     opts.["lineNumbers"] = VStr "relative") ∧
  (∀ f, InternalEditorViewOptions.renderCustomLineNumbers v = Some f ↔
        opts.["lineNumbers"] = VFun f) ∧
  (∀ f, opts.["lineNumbers"] = VFun f →
        InternalEditorViewOptions.renderLineNumbers v = true ∧
        InternalEditorViewOptions.renderRelativeLineNumbers v = false) ∧
  (InternalEditorViewOptions.renderLineNumbers v = false ↔
     opts.["lineNumbers"] ≠ VBool true ∧ opts.["lineNumbers"] ≠ VStr "on" ∧
     opts.["lineNumbers"] ≠ VStr "relative" ∧ JS.is_function opts.["lineNumbers"] = false).
Proof.
  intros v.
  pose proof (createInternalEditorOptions_viewInfo_lineNumbers
                outerWidth outerHeight opts fontInfo editorClassName isDominatedByLongLines
                lineNumbersDigitCount canUseTranslate3d pixelRatio w) as Hinfo.
  cbv zeta in Hinfo. fold v in Hinfo.
  set (r := InternalEditorViewOptions.renderLineNumbers v) in *.
  set (custom := InternalEditorViewOptions.renderCustomLineNumbers v) in *.
  set (rel := InternalEditorViewOptions.renderRelativeLineNumbers v) in *.
  clearbody r custom rel. clear v.
  unfold InternalEditorOptionsHelper.lineNumbersInfo in Hinfo.
  destruct (opts.["lineNumbers"]) as [| | [|] | n | s | | |]; simpl in Hinfo.
  6: destruct (String.eqb_spec s "relative") as [Hrel | Hrel];
       [| destruct (String.eqb_spec s "on") as [Hon | Hon]].
  all: inversion Hinfo; subst; clear Hinfo.
  all: repeat split; intros; try done; try congruence.
  all: repeat match goal with
         | Hc : _ ∧ _ |- _ => destruct Hc
         end; try congruence; try done.
Qed.

(** X9.  When [MAX_SAFE_SMALL_INTEGER] is a positive 32-bit integer, the
    wrapping column of a snapshot is never 0: it is -1 exactly when there
    is no wrapping by the options and the model is not dominated by long
    lines, and at least 1 otherwise; with viewport wrapping it does not
    exceed the viewport column (taken as at least 1). *)
Theorem wrappingColumn_never_zero `{External}
    outerWidth outerHeight opts fontInfo editorClassName isDominatedByLongLines
    lineNumbersDigitCount canUseTranslate3d pixelRatio (w : World) :
  1 ≤ MAX_SAFE_SMALL_INTEGER → MAX_SAFE_SMALL_INTEGER < 2 ^ 31 →
  let o := fst (InternalEditorOptionsHelper.createInternalEditorOptions
                  outerWidth outerHeight opts fontInfo editorClassName
                  isDominatedByLongLines lineNumbersDigitCount canUseTranslate3d
                  pixelRatio w) in
  let viewport := EditorWrappingInfo.isViewportWrapping (InternalEditorOptions.wrappingInfo o) in
  let column := EditorWrappingInfo.wrappingColumn (InternalEditorOptions.wrappingInfo o) in
  (column = -1 ∨ 1 ≤ column) ∧
  (column = -1 → viewport = false ∧ isDominatedByLongLines = false) ∧
  (viewport = true →
     1 ≤ column ≤ Z.max 1 (viewportColumn (InternalEditorOptions.layoutInfo o))) ∧
  (viewport = false → 1 ≤ column → column = toInteger_2 opts.["wordWrapColumn"] 1).
Proof.
  intros Hmax Hint o viewport column.
  pose proof (createInternalEditorOptions_wrappingInfo
                outerWidth outerHeight opts fontInfo editorClassName isDominatedByLongLines
                lineNumbersDigitCount canUseTranslate3d pixelRatio w) as Hinfo.
  cbv zeta in Hinfo. fold o in Hinfo. fold viewport column in Hinfo.
  pose proof (toInteger_2_in_bounds opts.["wordWrapColumn"] 1 Hmax ltac:(lia) Hint) as Hcol.
  clearbody viewport column.
  unfold InternalEditorOptionsHelper.bareWrappingInfo in Hinfo.
  set (col := toInteger_2 opts.["wordWrapColumn"] 1) in *.
  set (vc := viewportColumn (InternalEditorOptions.layoutInfo o)) in *.
  clearbody col vc. cbv zeta in Hinfo.
  destruct isDominatedByLongLines;
    repeat match type of Hinfo with
           | context [if ?b then _ else _] => destruct b
           end;
    inversion Hinfo; subst; repeat split; intros; try done; try lia.
Qed.

Lemma wrappingColumn_never_zero_witness :
  let o := fst (InternalEditorOptionsHelper.createInternalEditorOptions (H := Sample.ext)
                  1200 800 (Sample.options [("wordWrap", VStr "bounded");
                                            ("wordWrapColumn", VNum 0)])
                  (Sample.Font 28 10) "monaco-editor" false 1 true 1 (Sample.world false)) in
  EditorWrappingInfo.wrappingColumn (InternalEditorOptions.wrappingInfo o) = -1 ∨
  1 ≤ EditorWrappingInfo.wrappingColumn (InternalEditorOptions.wrappingInfo o).
Proof.
  assert (1 ≤ @MAX_SAFE_SMALL_INTEGER Sample.ext) as Hmax by (simpl; lia).
  assert (@MAX_SAFE_SMALL_INTEGER Sample.ext < 2 ^ 31) as Hint by (simpl; lia).
  exact (proj1 (wrappingColumn_never_zero (H := Sample.ext)
                  1200 800 (Sample.options [("wordWrap", VStr "bounded");
                                            ("wordWrapColumn", VNum 0)])
                  (Sample.Font 28 10) "monaco-editor" false 1 true 1 (Sample.world false)
                  Hmax Hint)).
Defined.

(** X10.  In every snapshot [overviewRulerLanes] lies in [[0, 3]] and the
    minimap's [maxColumn] is at least 1.  When [MAX_SAFE_SMALL_INTEGER] is
    a non-negative 32-bit integer, [revealHorizontalRightPadding] lies in
    [[0, MAX_SAFE_SMALL_INTEGER]] and [stopRenderingLineAfter] is at least
    -1: it is 10000 when the option is [undefined] and the coerced option
    otherwise, [null] included. *)
Theorem view_numbers_within_bounds `{External}
    outerWidth outerHeight opts fontInfo editorClassName isDominatedByLongLines
    lineNumbersDigitCount canUseTranslate3d pixelRatio (w : World) :
  let v := InternalEditorOptions.viewInfo
             (fst (InternalEditorOptionsHelper.createInternalEditorOptions
                     outerWidth outerHeight opts fontInfo editorClassName
                     isDominatedByLongLines lineNumbersDigitCount canUseTranslate3d
                     pixelRatio w)) in
  0 ≤ InternalEditorViewOptions.overviewRulerLanes v ≤ 3 ∧
  1 ≤ InternalEditorMinimapOptions.maxColumn (InternalEditorViewOptions.minimap v) ∧
  (0 ≤ MAX_SAFE_SMALL_INTEGER → MAX_SAFE_SMALL_INTEGER < 2 ^ 31 →
     0 ≤ InternalEditorViewOptions.revealHorizontalRightPadding v ≤ MAX_SAFE_SMALL_INTEGER ∧
     -1 ≤ InternalEditorViewOptions.stopRenderingLineAfter v ∧
     (opts.["stopRenderingLineAfter"] = VUndefined →
        InternalEditorViewOptions.stopRenderingLineAfter v = 10000) ∧
     (opts.["stopRenderingLineAfter"] = VNull →
        InternalEditorViewOptions.stopRenderingLineAfter v = 0)).
Proof.
  intros v.
  pose proof (createInternalEditorOptions_numbers
                outerWidth outerHeight opts fontInfo editorClassName isDominatedByLongLines
                lineNumbersDigitCount canUseTranslate3d pixelRatio w) as Hnum.
  cbv zeta in Hnum. fold v in Hnum.
  destruct Hnum as (-> & -> & -> & -> & _).
  split; [apply toInteger_in_bounds; lia |].
  split.
  { unfold InternalEditorOptionsHelper._sanitizeMinimapOpts. simpl.
    destruct (Z.ltb_spec (toIntegerWithDefault (get (minimap opts) "maxColumn")
                            DefaultConfig_minimap_maxColumn) 1); lia. }
  intros Hmax Hint.
  split; [apply toInteger_2_in_bounds; lia |].
  split; [| split].
  - destruct (negb _); [| lia].
    pose proof (toInteger_2_in_bounds opts.["stopRenderingLineAfter"] (-1)). lia.
  - by intros ->.
  - intros ->. simpl. unfold toInteger_2, toInteger.
    change (JS.parseInt VNull) with (@None Z).
    rewrite Z.max_r, Z.min_r by lia. reflexivity.
Qed.

Lemma view_numbers_within_bounds_witness :
  let v := InternalEditorOptions.viewInfo
             (fst (InternalEditorOptionsHelper.createInternalEditorOptions (H := Sample.ext)
                     1200 800 (Sample.options [("overviewRulerLanes", VNum 7);
                                               ("stopRenderingLineAfter", VNum (-5))])
                     (Sample.Font 28 10) "monaco-editor" false 1 true 1
                     (Sample.world false))) in
  0 ≤ InternalEditorViewOptions.overviewRulerLanes v ≤ 3 ∧
  -1 ≤ InternalEditorViewOptions.stopRenderingLineAfter v.
Proof.
  pose proof (view_numbers_within_bounds (H := Sample.ext)
                1200 800 (Sample.options [("overviewRulerLanes", VNum 7);
                                          ("stopRenderingLineAfter", VNum (-5))])
                (Sample.Font 28 10) "monaco-editor" false 1 true 1 (Sample.world false))
    as (Hlanes & _ & Hrest).
  split; [exact Hlanes |].
  apply Hrest; simpl; lia.
Defined.

(** X11.  The scrollbar options of a snapshot: a slider size that is not
    given is the size of its scrollbar, whatever that is; a visibility
    other than ['hidden'] and ['visible'], a missing one included, is
    [Auto]; and with nothing given the sizes are 10, 14 and 11. *)
Theorem scrollbar_defaults `{External} (raw : gmap string value)
    (mouseWheelScrollSensitivity : number) :
  let s := InternalEditorOptionsHelper._sanitizeScrollbarOpts raw mouseWheelScrollSensitivity in
  (get raw "horizontalSliderSize" = VUndefined →
     InternalEditorScrollbarOptions.horizontalSliderSize s
     = InternalEditorScrollbarOptions.horizontalScrollbarSize s) ∧
  (get raw "verticalSliderSize" = VUndefined →
     InternalEditorScrollbarOptions.verticalSliderSize s
     = InternalEditorScrollbarOptions.verticalScrollbarSize s) ∧
  (get raw "vertical" ≠ VStr "hidden" → get raw "vertical" ≠ VStr "visible" →
     InternalEditorScrollbarOptions.vertical s = Auto) ∧
  (get raw "horizontal" ≠ VStr "hidden" → get raw "horizontal" ≠ VStr "visible" →
     InternalEditorScrollbarOptions.horizontal s = Auto) ∧
  (raw = ∅ →
     InternalEditorScrollbarOptions.horizontalScrollbarSize s = 10 ∧
     InternalEditorScrollbarOptions.horizontalSliderSize s = 10 ∧
     InternalEditorScrollbarOptions.verticalScrollbarSize s = 14 ∧
     InternalEditorScrollbarOptions.verticalSliderSize s = 14 ∧
     InternalEditorScrollbarOptions.arrowSize s = 11 ∧
     InternalEditorScrollbarOptions.useShadows s = true ∧
     InternalEditorScrollbarOptions.handleMouseWheel s = true ∧
     InternalEditorScrollbarOptions.verticalHasArrows s = false ∧
     InternalEditorScrollbarOptions.horizontalHasArrows s = false).
Proof.
  intros s. subst s. unfold InternalEditorOptionsHelper._sanitizeScrollbarOpts. simpl.
  split; [by intros -> |]. split; [by intros -> |].
  split; [| split].
  - intros Hh Hv. unfold InternalEditorOptionsHelper.visibilityFromString.
    destruct (JS.is_str (get raw "vertical") "hidden") eqn:E1;
      [by apply is_str_true in E1 |].
    destruct (JS.is_str (get raw "vertical") "visible") eqn:E2;
      [by apply is_str_true in E2 |]. reflexivity.
  - intros Hh Hv. unfold InternalEditorOptionsHelper.visibilityFromString.
    destruct (JS.is_str (get raw "horizontal") "hidden") eqn:E1;
      [by apply is_str_true in E1 |].
    destruct (JS.is_str (get raw "horizontal") "visible") eqn:E2;
      [by apply is_str_true in E2 |]. reflexivity.
  - intros ->. unfold get. rewrite !lookup_total_empty. simpl. done.
Qed.

Lemma scrollbar_defaults_witness :
  let s := InternalEditorOptionsHelper._sanitizeScrollbarOpts (H := Sample.ext)
             {[ "verticalScrollbarSize" := VNum 20 ]} 1 in
  InternalEditorScrollbarOptions.verticalSliderSize s = 20 ∧
  InternalEditorScrollbarOptions.vertical s = Auto.
Proof.
  pose proof (scrollbar_defaults (H := Sample.ext)
                {[ "verticalScrollbarSize" := VNum 20 ]} 1) as (_ & Hv & Hvis & _).
  split.
  - rewrite Hv by reflexivity. reflexivity.
  - apply Hvis; discriminate.
Defined.



(** * Further properties of the snapshot store *)

Section ComputeFacts.
Context `{External}.
Import CommonEditorConfiguration.

(** What the snapshot of a pass depends on, among the long-lines flag, the
    digit count and the process-wide state. *)
Lemma createInternalEditorOptions_dependencies
    outerWidth outerHeight opts fontInfo editorClassName canUseTranslate3d pixelRatio
    (dominated1 dominated2 : bool) (digits1 digits2 : Z) (w1 w2 : World) :
  let o1 := fst (InternalEditorOptionsHelper.createInternalEditorOptions
                   outerWidth outerHeight opts fontInfo editorClassName dominated1
                   digits1 canUseTranslate3d pixelRatio w1) in
  let o2 := fst (InternalEditorOptionsHelper.createInternalEditorOptions
                   outerWidth outerHeight opts fontInfo editorClassName dominated2
                   digits2 canUseTranslate3d pixelRatio w2) in
  InternalEditorOptions.lineHeight o1 = InternalEditorOptions.lineHeight o2 ∧
  InternalEditorOptions.readOnly o1 = InternalEditorOptions.readOnly o2 ∧
  InternalEditorOptions.wordSeparators o1 = InternalEditorOptions.wordSeparators o2 ∧
  InternalEditorOptions.autoClosingBrackets o1 = InternalEditorOptions.autoClosingBrackets o2 ∧
  InternalEditorOptions.useTabStops o1 = InternalEditorOptions.useTabStops o2 ∧
  InternalEditorOptions.dragAndDrop o1 = InternalEditorOptions.dragAndDrop o2 ∧
  InternalEditorOptions.fontInfo o1 = InternalEditorOptions.fontInfo o2 ∧
  InternalEditorOptions.viewInfo o1 = InternalEditorOptions.viewInfo o2 ∧
  InternalEditorOptions.contribInfo o1 = InternalEditorOptions.contribInfo o2 ∧
  (digits1 = digits2 →
     InternalEditorOptions.layoutInfo o1 = InternalEditorOptions.layoutInfo o2) ∧
  (InternalEditorOptions.layoutInfo o1 = InternalEditorOptions.layoutInfo o2 →
   dominated1 = dominated2 →
     InternalEditorOptions.wrappingInfo o1 = InternalEditorOptions.wrappingInfo o2) ∧
  (TabFocus.getTabFocusMode (world_TabFocus w1) = TabFocus.getTabFocusMode (world_TabFocus w2) →
     InternalEditorOptions.tabFocusMode o1 = InternalEditorOptions.tabFocusMode o2) ∧
  InternalEditorOptions.tabFocusMode o1
    = (if toBoolean opts.["readOnly"] then true
       else TabFocus.getTabFocusMode (world_TabFocus w1)).
Proof.
  unfold InternalEditorOptionsHelper.createInternalEditorOptions.
  destruct (InternalEditorOptionsHelper.lineNumbersInfo opts) as [[? ?] ?].
  unfold Proc_bind, Proc_ret, TabFocus_getTabFocusMode. cbn [fst].
  cbv zeta. simpl.
  repeat split; try reflexivity.
  - by intros ->.
  - intros Hlayout ->. by rewrite Hlayout.
  - by intros ->.
Qed.

Lemma snapshot_eq (a b : InternalEditorOptions.t) :
  InternalEditorOptions.lineHeight a = InternalEditorOptions.lineHeight b →
  InternalEditorOptions.readOnly a = InternalEditorOptions.readOnly b →
  InternalEditorOptions.wordSeparators a = InternalEditorOptions.wordSeparators b →
  InternalEditorOptions.autoClosingBrackets a = InternalEditorOptions.autoClosingBrackets b →
  InternalEditorOptions.useTabStops a = InternalEditorOptions.useTabStops b →
  InternalEditorOptions.tabFocusMode a = InternalEditorOptions.tabFocusMode b →
  InternalEditorOptions.dragAndDrop a = InternalEditorOptions.dragAndDrop b →
  InternalEditorOptions.layoutInfo a = InternalEditorOptions.layoutInfo b →
  InternalEditorOptions.fontInfo a = InternalEditorOptions.fontInfo b →
  InternalEditorOptions.viewInfo a = InternalEditorOptions.viewInfo b →
  InternalEditorOptions.wrappingInfo a = InternalEditorOptions.wrappingInfo b →
  InternalEditorOptions.contribInfo a = InternalEditorOptions.contribInfo b →
  a = b.
Proof. destruct a, b. simpl. intros. by subst. Qed.

Lemma flag_false {A} `{EqDecision A} (x y : A) : x = y → bool_decide (x ≠ y) = false.
Proof. intros ->. apply bool_decide_eq_false_2. by intros Hne. Qed.

Lemma flag_true {A} `{EqDecision A} (x y : A) : x ≠ y → bool_decide (x ≠ y) = true.
Proof. apply bool_decide_eq_true_2. Qed.

Lemma fired_recomputed (o : InternalEditorOptions.t) : fired [Recomputed o] = [].
Proof. reflexivity. Qed.

Lemma fired_changed (o : InternalEditorOptions.t) (e : IConfigurationChangedEvent.t) :
  fired [Recomputed o; DidChange e] = [e].
Proof. reflexivity. Qed.

Lemma recompute_in_sync (h : Host.t) (w : World) (c : t) :
  let c' := fst (fst (_recomputeOptions h c w)) in
  in_sync h w c' ∧
  _configWithDefaults c' = _configWithDefaults c ∧
  _isDominatedByLongLines c' = _isDominatedByLongLines c ∧
  _lineNumbersDigitCount c' = _lineNumbersDigitCount c ∧
  (editorClone c = clone (editor c) → editorClone c' = clone (editor c')).
Proof.
  intros c'. subst c'. rewrite _recomputeOptions_run. cbn [fst].
  set (newOptions := fst (_computeInternalOptions h _ _ _ w)).
  destruct (decide (editor c = newOptions)) as [Heq | Hne].
  - rewrite _setOptions_same by done. cbn [fst]. repeat split; try done.
  - rewrite _setOptions_differs by done. cbn [fst]. repeat split; try done.
Qed.

Lemma new_in_sync (h : Host.t) (w : World) (options : IEditorOptions)
    (self : Emitter.listener) :
  let c := fst (new h options self w) in
  let w' := snd (new h options self w) in
  in_sync h w c ∧ in_sync h w' c ∧
  editorClone c = clone (editor c) ∧
  _configWithDefaults c = options ∧
  _isDominatedByLongLines c = false ∧
  _lineNumbersDigitCount c = 1 ∧
  TabFocus.getTabFocusMode (world_TabFocus w') = TabFocus.getTabFocusMode (world_TabFocus w) ∧
  Emitter.listeners (TabFocus._onDidChangeTabFocus (world_TabFocus w'))
  = (Emitter.listeners (TabFocus._onDidChangeTabFocus (world_TabFocus w)) ++ [self])%list ∧
  world_GlobalScreenReaderNVDA w' = world_GlobalScreenReaderNVDA w.
Proof.
  intros c w'. subst c w'. unfold new, Proc_bind, Proc_ret, TabFocus_onDidChangeTabFocus.
  pose proof (_computeInternalOptions_world h options false 1 w) as Hw.
  destruct (_computeInternalOptions h options false 1 w) as [o w0] eqn:Hrun.
  simpl in Hw. subst w0. cbn [fst snd].
  assert (in_sync h w (mk o (clone o) options false 1)) as Hsync.
  { unfold in_sync. cbn. by rewrite Hrun. }
  split; [exact Hsync |]. split; [| repeat split].
  unfold in_sync in *. cbn in *. rewrite Hsync.
  unfold _computeInternalOptions. by apply createInternalEditorOptions_same_toggle.
Qed.

End ComputeFacts.

(** X13.  The store keeps its snapshot in step with its own fields: after
    the constructor, after every recomputation and after
    [setIsDominatedByLongLines], [editor] is the normalization of the
    store's options, long-lines flag and digit count; [setMaxLineNumber]
    preserves this; and [editorClone] stays a clone of [editor].  The
    constructor starts with the flag off and the digit count 1, and
    subscribes the store to the tab-focus toggle without changing the
    toggle's value. *)
Theorem store_stays_in_sync `{External} (h : Host.t) (w : World) :
  (∀ options self,
     let '(c, w') := CommonEditorConfiguration.new h options self w in
     in_sync h w' c ∧
     CommonEditorConfiguration.editorClone c = clone (CommonEditorConfiguration.editor c) ∧
     CommonEditorConfiguration._isDominatedByLongLines c = false ∧
     CommonEditorConfiguration._lineNumbersDigitCount c = 1 ∧
     TabFocus.getTabFocusMode (world_TabFocus w') = TabFocus.getTabFocusMode (world_TabFocus w) ∧
     Emitter.listeners (TabFocus._onDidChangeTabFocus (world_TabFocus w'))
     = (Emitter.listeners (TabFocus._onDidChangeTabFocus (world_TabFocus w)) ++ [self])%list) ∧
  (∀ c,
     let '(c', _, w') := CommonEditorConfiguration._recomputeOptions h c w in
     w' = w ∧ in_sync h w c' ∧
     (CommonEditorConfiguration.editorClone c = clone (CommonEditorConfiguration.editor c) →
      CommonEditorConfiguration.editorClone c' = clone (CommonEditorConfiguration.editor c'))) ∧
  (∀ c b,
     let '(c', _, w') := CommonEditorConfiguration.setIsDominatedByLongLines h b c w in
     w' = w ∧ in_sync h w c' ∧
     CommonEditorConfiguration._isDominatedByLongLines c' = b ∧
     (CommonEditorConfiguration.editorClone c = clone (CommonEditorConfiguration.editor c) →
      CommonEditorConfiguration.editorClone c' = clone (CommonEditorConfiguration.editor c'))) ∧
  (∀ c n fuel c' effects w',
     CommonEditorConfiguration.setMaxLineNumber fuel h n c w = Some (c', effects, w') →
     in_sync h w c →
     w' = w ∧ in_sync h w c' ∧
     (CommonEditorConfiguration.editorClone c = clone (CommonEditorConfiguration.editor c) →
      CommonEditorConfiguration.editorClone c' = clone (CommonEditorConfiguration.editor c'))).
Proof.
  split; [| split; [| split]].
  - intros options self.
    pose proof (new_in_sync h w options self) as Hnew. cbv zeta in Hnew.
    destruct (CommonEditorConfiguration.new h options self w) as [c w'].
    cbn [fst snd] in Hnew. tauto.
  - intros c.
    pose proof (recompute_in_sync h w c) as Hrec. cbv zeta in Hrec.
    pose proof (_recomputeOptions_run h c w) as Hrun. cbv zeta in Hrun.
    destruct (CommonEditorConfiguration._recomputeOptions h c w) as [[c' effects] w'].
    injection Hrun as _ _ ->. cbn [fst] in Hrec. tauto.
  - intros c b. unfold CommonEditorConfiguration.setIsDominatedByLongLines.
    set (cb := CommonEditorConfiguration.mk _ _ _ b _).
    pose proof (recompute_in_sync h w cb) as Hrec. cbv zeta in Hrec.
    pose proof (_recomputeOptions_run h cb w) as Hrun. cbv zeta in Hrun.
    destruct (CommonEditorConfiguration._recomputeOptions h cb w) as [[c' effects] w'].
    injection Hrun as _ _ ->. cbn [fst] in Hrec.
    destruct Hrec as (Hsync & _ & Hdom & _ & Hclone). repeat split; try done.
  - intros c n fuel c' effects w' Hrun Hsync.
    unfold CommonEditorConfiguration.setMaxLineNumber in Hrun.
    destruct (digitCount fuel n) as [d |]; [| discriminate]. simpl in Hrun.
    destruct (Z.eqb_spec (CommonEditorConfiguration._lineNumbersDigitCount c) d).
    + injection Hrun as <- _ <-. done.
    + set (cd := CommonEditorConfiguration.mk _ _ _ _ d) in Hrun.
      pose proof (recompute_in_sync h w cd) as Hrec. cbv zeta in Hrec.
      pose proof (_recomputeOptions_run h cd w) as Hrun'. cbv zeta in Hrun'.
      rewrite Hrun' in Hrun, Hrec. cbn [fst] in Hrec.
      injection Hrun as <- _ <-.
      destruct Hrec as (Hsync' & _ & _ & _ & Hclone). repeat split; try done.
Qed.

Lemma store_stays_in_sync_witness :
  let c := fst (CommonEditorConfiguration.new (H := Sample.ext) Sample.host
                  (Sample.options []) 1%positive (Sample.world false)) in
  let '(c', _, w') :=
    CommonEditorConfiguration.setIsDominatedByLongLines Sample.host true c
      (Sample.world false) in
  w' = Sample.world false ∧ in_sync Sample.host (Sample.world false) c' ∧
  CommonEditorConfiguration._isDominatedByLongLines c' = true.
Proof.
  intros c.
  pose proof (store_stays_in_sync (H := Sample.ext) Sample.host (Sample.world false))
    as (_ & _ & Hlong & _).
  specialize (Hlong c true).
  destruct (CommonEditorConfiguration.setIsDominatedByLongLines Sample.host true c
              (Sample.world false)) as [[c' effects] w'].
  destruct Hlong as (Hw & Hsync & Hflag & _). by repeat split.
Defined.

(** X14.  A recomputation repeated at once, under the same host and
    process-wide state, finds the snapshot unchanged: it fires no event
    and leaves the store as it is.  The same holds for a second
    [setIsDominatedByLongLines] with the same flag. *)
Theorem recompute_is_idempotent `{External}
    (h : Host.t) (c : CommonEditorConfiguration.t) (w : World) (b : bool) :
  (let '(c1, _, w1) := CommonEditorConfiguration._recomputeOptions h c w in
   CommonEditorConfiguration._recomputeOptions h c1 w1
   = (c1, [CommonEditorConfiguration.Recomputed (CommonEditorConfiguration.editor c1)], w1)) ∧
  (let '(c1, _, w1) := CommonEditorConfiguration.setIsDominatedByLongLines h b c w in
   CommonEditorConfiguration.setIsDominatedByLongLines h b c1 w1
   = (c1, [CommonEditorConfiguration.Recomputed (CommonEditorConfiguration.editor c1)], w1)).
Proof.
  assert (∀ c0, in_sync h w c0 →
            CommonEditorConfiguration._recomputeOptions h c0 w
            = (c0, [CommonEditorConfiguration.Recomputed
                      (CommonEditorConfiguration.editor c0)], w)) as Hstable.
  { intros c0 Hsync. rewrite _recomputeOptions_run. unfold in_sync in Hsync.
    rewrite <- Hsync. by rewrite _setOptions_same. }
  split.
  - pose proof (recompute_in_sync h w c) as Hrec. cbv zeta in Hrec.
    pose proof (_recomputeOptions_run h c w) as Hrun. cbv zeta in Hrun.
    destruct (CommonEditorConfiguration._recomputeOptions h c w) as [[c1 effects] w1].
    injection Hrun as _ _ ->. cbn [fst] in Hrec. apply Hstable. tauto.
  - unfold CommonEditorConfiguration.setIsDominatedByLongLines.
    set (cb := CommonEditorConfiguration.mk (CommonEditorConfiguration.editor c)
                 (CommonEditorConfiguration.editorClone c)
                 (CommonEditorConfiguration._configWithDefaults c) b
                 (CommonEditorConfiguration._lineNumbersDigitCount c)).
    pose proof (recompute_in_sync h w cb) as Hrec. cbv zeta in Hrec.
    pose proof (_recomputeOptions_run h cb w) as Hrun. cbv zeta in Hrun.
    destruct (CommonEditorConfiguration._recomputeOptions h cb w) as [[c1 effects] w1].
    injection Hrun as _ _ ->. cbn [fst] in Hrec.
    destruct Hrec as (Hsync & _ & Hdom & _).
    replace (CommonEditorConfiguration.mk (CommonEditorConfiguration.editor c1)
               (CommonEditorConfiguration.editorClone c1)
               (CommonEditorConfiguration._configWithDefaults c1) b
               (CommonEditorConfiguration._lineNumbersDigitCount c1)) with c1
      by (destruct c1; simpl in *; by subst).
    by apply Hstable.
Qed.

Section EventFacts.
Context `{External}.
Import CommonEditorConfiguration.

(** The outcome of a recomputation on a store that is in step, in terms
    of the snapshot computed before and the one computed now. *)
Lemma recompute_from_sync (h : Host.t) (w0 w : World) (c0 c : t) :
  editor c = fst (_computeInternalOptions h (_configWithDefaults c0)
                    (_isDominatedByLongLines c0) (_lineNumbersDigitCount c0) w0) →
  let old := editor c in
  let newOptions := fst (_computeInternalOptions h (_configWithDefaults c)
                           (_isDominatedByLongLines c) (_lineNumbersDigitCount c) w) in
  (old = newOptions → _recomputeOptions h c w = (c, [Recomputed newOptions], w)) ∧
  (old ≠ newOptions →
     _recomputeOptions h c w
     = (mk newOptions (clone newOptions) (_configWithDefaults c)
           (_isDominatedByLongLines c) (_lineNumbersDigitCount c),
        [Recomputed newOptions; DidChange (createChangeEvent old newOptions)], w)).
Proof.
  intros _ old newOptions. rewrite _recomputeOptions_run. fold newOptions.
  split; intros Hcmp.
  - by rewrite _setOptions_same.
  - by rewrite _setOptions_differs.
Qed.

End EventFacts.

(** X15.  When the tab-focus toggle changes under a store that is in
    step, the recomputation fires nothing if [readOnly] coerces to [true]
    or the toggle holds the value it held; otherwise it fires exactly one
    change event, with the [tabFocusMode] flag set and every other flag
    clear, and the new snapshot carries the toggle's value. *)
Theorem tabFocus_change_marks_tabFocusMode `{External}
    (h : Host.t) (c : CommonEditorConfiguration.t) (w1 w2 : World) :
  in_sync h w1 c →
  let readOnly := toBoolean (CommonEditorConfiguration._configWithDefaults c).["readOnly"] in
  let before := TabFocus.getTabFocusMode (world_TabFocus w1) in
  let now := TabFocus.getTabFocusMode (world_TabFocus w2) in
  let '(c', effects, _) := CommonEditorConfiguration._recomputeOptions h c w2 in
  (readOnly = true ∨ before = now → fired effects = [] ∧ c' = c) ∧
  (readOnly = false → before ≠ now →
     fired effects
     = [IConfigurationChangedEvent.mk false false false false false true
                                      false false false false false false] ∧
     InternalEditorOptions.tabFocusMode (CommonEditorConfiguration.editor c') = now).
Proof.
  intros Hsync readOnly before now.
  pose proof (recompute_from_sync h w1 w2 c c Hsync) as [Hsame Hdiff].
  unfold in_sync in Hsync. cbv zeta in Hsame, Hdiff. rewrite Hsync in Hsame, Hdiff.
  unfold CommonEditorConfiguration._computeInternalOptions in Hsame, Hdiff.
  revert Hsame Hdiff.
  set (opts := CommonEditorConfiguration._configWithDefaults c) in *.
  match goal with
  | |- context [fst (InternalEditorOptionsHelper.createInternalEditorOptions
                       ?ow ?oh opts ?fi ?cls ?dom ?d ?t3d ?pr w1)] =>
      pose proof (createInternalEditorOptions_dependencies
                    ow oh opts fi cls t3d pr dom dom d d w1 w2) as Hdep;
      pose proof (createInternalEditorOptions_dependencies
                    ow oh opts fi cls t3d pr dom dom d d w2 w1) as Hdep2;
      cbv zeta in Hdep, Hdep2;
      set (o1 := fst (InternalEditorOptionsHelper.createInternalEditorOptions
                        ow oh opts fi cls dom d t3d pr w1)) in *;
      set (o2 := fst (InternalEditorOptionsHelper.createInternalEditorOptions
                        ow oh opts fi cls dom d t3d pr w2)) in *
  end.
  destruct Hdep as (E1 & E2 & E3 & E4 & E5 & E6 & E7 & E8 & E9 & Elayout & Ewrap & Etab & Emode1).
  destruct Hdep2 as (_ & _ & _ & _ & _ & _ & _ & _ & _ & _ & _ & _ & Emode2).
  specialize (Elayout eq_refl). specialize (Ewrap Elayout eq_refl).
  fold readOnly before in Emode1. fold readOnly now in Emode2.
  intros Hsame Hdiff.
  destruct (CommonEditorConfiguration._recomputeOptions h c w2) as [[c' effects] w'] eqn:Hrun.
  split.
  - intros Hquiet.
    assert (o1 = o2) as Heq.
    { apply snapshot_eq; try assumption. rewrite Emode1, Emode2.
      destruct Hquiet as [-> | ->]; reflexivity. }
    injection (Hsame Heq) as -> -> _. done.
  - intros Hro Hne. rewrite Hro in Emode1, Emode2.
    assert (o1 ≠ o2) as Hneq by (intros Heq; rewrite Heq in Emode1; congruence).
    injection (Hdiff Hneq) as -> -> _.
    split; [| exact Emode2].
    rewrite fired_changed. f_equal. unfold createChangeEvent. cbv zeta beta.
    f_equal; try (apply flag_false; assumption).
    apply flag_true. congruence.
Qed.

Lemma tabFocus_change_marks_tabFocusMode_witness :
  let c := fst (CommonEditorConfiguration.new (H := Sample.ext) Sample.host
                  (Sample.options []) 1%positive (Sample.world false)) in
  let '(c', effects, _) :=
    CommonEditorConfiguration._recomputeOptions Sample.host c (Sample.world true) in
  fired effects
  = [IConfigurationChangedEvent.mk false false false false false true
                                   false false false false false false] ∧
  InternalEditorOptions.tabFocusMode (CommonEditorConfiguration.editor c') = true.
Proof.
  intros c.
  pose proof (tabFocus_change_marks_tabFocusMode (H := Sample.ext) Sample.host c
                (Sample.world false) (Sample.world true)
                (proj1 (new_in_sync Sample.host (Sample.world false) (Sample.options [])
                          1%positive))) as Hchange.
  cbv zeta in Hchange.
  destruct (CommonEditorConfiguration._recomputeOptions Sample.host c (Sample.world true))
    as [[c' effects] w'].
  apply Hchange; [reflexivity | discriminate].
Defined.

Section WrappingFacts.
Context `{External}.

Lemma createInternalEditorOptions_wrappingInfo_eq
    outerWidth outerHeight opts fontInfo editorClassName canUseTranslate3d pixelRatio
    (dominated1 dominated2 : bool) (digits : Z) (w1 w2 : World) :
  let o1 := fst (InternalEditorOptionsHelper.createInternalEditorOptions
                   outerWidth outerHeight opts fontInfo editorClassName dominated1
                   digits canUseTranslate3d pixelRatio w1) in
  let o2 := fst (InternalEditorOptionsHelper.createInternalEditorOptions
                   outerWidth outerHeight opts fontInfo editorClassName dominated2
                   digits canUseTranslate3d pixelRatio w2) in
  InternalEditorOptionsHelper.bareWrappingInfo opts dominated1
    (InternalEditorOptions.layoutInfo o1)
  = InternalEditorOptionsHelper.bareWrappingInfo opts dominated2
      (InternalEditorOptions.layoutInfo o1) →
  InternalEditorOptions.wrappingInfo o1 = InternalEditorOptions.wrappingInfo o2.
Proof.
  unfold InternalEditorOptionsHelper.createInternalEditorOptions.
  destruct (InternalEditorOptionsHelper.lineNumbersInfo opts) as [[? ?] ?].
  unfold Proc_bind, Proc_ret, TabFocus_getTabFocusMode. cbn [fst].
  cbv zeta. simpl. by intros ->.
Qed.

Lemma bareWrappingInfo_on (opts : IEditorOptions) (layoutInfo : EditorLayoutInfo)
    (dominated1 dominated2 : bool) :
  opts.["wordWrap"] = VStr "on" ∨ opts.["wordWrap"] = VBool true →
  InternalEditorOptionsHelper.bareWrappingInfo opts dominated1 layoutInfo
  = InternalEditorOptionsHelper.bareWrappingInfo opts dominated2 layoutInfo.
Proof.
  intros Hon. unfold InternalEditorOptionsHelper.bareWrappingInfo.
  destruct Hon as [-> | ->]; by destruct dominated1, dominated2.
Qed.

End WrappingFacts.

(** X16.  On a store that is in step, [setIsDominatedByLongLines] can
    change the snapshot in its wrapping group only: a change event it
    fires has the [wrappingInfo] flag set and every other flag clear.  It
    fires nothing when the flag given is the flag stored, and nothing when
    [wordWrap] is ['on'] (or the legacy [true]), where the wrapping is the
    viewport's either way. *)
Theorem longLines_change_marks_wrappingInfo `{External}
    (h : Host.t) (c : CommonEditorConfiguration.t) (w : World) (b : bool) :
  in_sync h w c →
  let wordWrap := (CommonEditorConfiguration._configWithDefaults c).["wordWrap"] in
  let '(c', effects, _) := CommonEditorConfiguration.setIsDominatedByLongLines h b c w in
  (∀ e, e ∈ fired effects →
        e = IConfigurationChangedEvent.mk false false false false false false
                                          false false false false true false) ∧
  (length (fired effects) ≤ 1)%nat ∧
  (b = CommonEditorConfiguration._isDominatedByLongLines c ∨ wordWrap = VStr "on"
   ∨ wordWrap = VBool true →
     fired effects = [] ∧
     CommonEditorConfiguration.editor c' = CommonEditorConfiguration.editor c).
Proof.
  intros Hsync wordWrap. unfold CommonEditorConfiguration.setIsDominatedByLongLines.
  set (cb := CommonEditorConfiguration.mk (CommonEditorConfiguration.editor c)
               (CommonEditorConfiguration.editorClone c)
               (CommonEditorConfiguration._configWithDefaults c) b
               (CommonEditorConfiguration._lineNumbersDigitCount c)).
  pose proof (recompute_from_sync h w w c cb Hsync) as [Hsame Hdiff].
  unfold in_sync in Hsync. cbv zeta in Hsame, Hdiff.
  change (CommonEditorConfiguration.editor cb) with (CommonEditorConfiguration.editor c)
    in Hsame, Hdiff.
  rewrite Hsync in Hsame, Hdiff.
  unfold CommonEditorConfiguration._computeInternalOptions in Hsame, Hdiff.
  cbn [cb CommonEditorConfiguration._configWithDefaults
       CommonEditorConfiguration._isDominatedByLongLines
       CommonEditorConfiguration._lineNumbersDigitCount] in Hsame, Hdiff.
  set (opts := CommonEditorConfiguration._configWithDefaults c) in *.
  set (dom := CommonEditorConfiguration._isDominatedByLongLines c) in *.
  revert Hsame Hdiff.
  match goal with
  | |- context [fst (InternalEditorOptionsHelper.createInternalEditorOptions
                       ?ow ?oh opts ?fi ?cls dom ?d ?t3d ?pr w)] =>
      pose proof (createInternalEditorOptions_dependencies
                    ow oh opts fi cls t3d pr dom b d d w w) as Hdep;
      pose proof (createInternalEditorOptions_wrappingInfo_eq
                    ow oh opts fi cls t3d pr dom b d w w) as Hwrap;
      cbv zeta in Hdep, Hwrap;
      set (o1 := fst (InternalEditorOptionsHelper.createInternalEditorOptions
                        ow oh opts fi cls dom d t3d pr w)) in *;
      set (o2 := fst (InternalEditorOptionsHelper.createInternalEditorOptions
                        ow oh opts fi cls b d t3d pr w)) in *
  end.
  destruct Hdep as (E1 & E2 & E3 & E4 & E5 & E6 & E7 & E8 & E9 & Elayout & Ewrap & Etab & _).
  specialize (Elayout eq_refl). specialize (Ewrap Elayout). specialize (Etab eq_refl).
  intros Hsame Hdiff.
  destruct (CommonEditorConfiguration._recomputeOptions h cb w) as [[c' effects] w'].
  destruct (decide (o1 = o2)) as [Heq | Hneq].
  - injection (Hsame Heq) as -> -> _. rewrite fired_recomputed.
    split; [intros e He; by apply elem_of_nil in He |]. split; [simpl; lia |].
    intros _. split; reflexivity.
  - injection (Hdiff Hneq) as -> -> _. rewrite fired_changed.
    assert (InternalEditorOptions.wrappingInfo o1 ≠ InternalEditorOptions.wrappingInfo o2)
      as Hw by (intros Hw; apply Hneq; by apply snapshot_eq).
    split; [| split; [simpl; lia |]].
    + intros e He. apply list_elem_of_singleton in He. subst e.
      unfold createChangeEvent. cbv zeta beta.
      f_equal; try (apply flag_false; assumption). by apply flag_true.
    + intros Hquiet. exfalso. apply Hw.
      destruct Hquiet as [-> | Hon]; [by apply Ewrap |].
      apply Hwrap. by apply bareWrappingInfo_on.
Qed.

Lemma longLines_change_marks_wrappingInfo_witness :
  let c := fst (CommonEditorConfiguration.new (H := Sample.ext) Sample.host
                  (Sample.options [("wordWrap", VStr "on")]) 1%positive
                  (Sample.world false)) in
  let '(c', effects, _) :=
    CommonEditorConfiguration.setIsDominatedByLongLines Sample.host true c
      (Sample.world false) in
  fired effects = [] ∧
  CommonEditorConfiguration.editor c' = CommonEditorConfiguration.editor c.
Proof.
  intros c.
  pose proof (longLines_change_marks_wrappingInfo (H := Sample.ext) Sample.host c
                (Sample.world false) true
                (proj1 (new_in_sync Sample.host (Sample.world false)
                          (Sample.options [("wordWrap", VStr "on")]) 1%positive)))
    as Hchange.
  cbv zeta in Hchange.
  destruct (CommonEditorConfiguration.setIsDominatedByLongLines Sample.host true c
              (Sample.world false)) as [[c' effects] w'].
  apply Hchange. right. left. reflexivity.
Defined.



Section ToggleFacts.

Lemma default_last_cons (b v : bool) (vs : list bool) :
  default b (last (v :: vs)) = default v (last vs).
Proof. rewrite last_cons. by destruct (last vs). Qed.

Lemma eqb_false_negb (b v : bool) : Bool.eqb b v = false → v = negb b.
Proof. by destruct b, v. Qed.

End ToggleFacts.

(** X18.  Over any sequence of calls of [TabFocus.setTabFocusMode], and
    likewise of [GlobalScreenReaderNVDA.setValue], the subscribers stay
    the same, the toggle ends at the last value set (at its own value for
    no call), and the values fired alternate, beginning with the negation
    of the value the toggle had: no value is fired twice in a row, and
    there are at most as many fires as calls. *)
Theorem toggle_fires_alternate (vs : list bool) :
  (∀ s : TabFocus.t,
     let '(s', deliveries) := setTabFocusMode_each vs s in
     TabFocus._tabFocus s' = default (TabFocus._tabFocus s) (last vs) ∧
     TabFocus._onDidChangeTabFocus s' = TabFocus._onDidChangeTabFocus s ∧
     ∃ n : nat, (n ≤ length vs)%nat ∧
       deliveries = flat_map (Emitter.fire (TabFocus._onDidChangeTabFocus s))
                             (alternation n (TabFocus._tabFocus s))) ∧
  (∀ s : GlobalScreenReaderNVDA.t,
     let '(s', deliveries) := setValue_each vs s in
     GlobalScreenReaderNVDA._value s' = default (GlobalScreenReaderNVDA._value s) (last vs) ∧
     GlobalScreenReaderNVDA._onChange s' = GlobalScreenReaderNVDA._onChange s ∧
     ∃ n : nat, (n ≤ length vs)%nat ∧
       deliveries = flat_map (Emitter.fire (GlobalScreenReaderNVDA._onChange s))
                             (alternation n (GlobalScreenReaderNVDA._value s))).
Proof.
  split.
  - induction vs as [| v vs IH]; intros s.
    + simpl. repeat split. exists 0%nat. split; [lia | reflexivity].
    + cbn [setTabFocusMode_each]. unfold TabFocus.setTabFocusMode.
      destruct (Bool.eqb (TabFocus._tabFocus s) v) eqn:Hv.
      * apply Bool.eqb_prop in Hv. specialize (IH s).
        destruct (setTabFocusMode_each vs s) as [s2 rest].
        destruct IH as (Hlast & Hsubs & n & Hn & ->).
        rewrite default_last_cons, <- Hv. repeat split; try assumption.
        exists n. split; [simpl; lia | reflexivity].
      * apply eqb_false_negb in Hv. cbv zeta.
        specialize (IH (TabFocus.mk v (TabFocus._onDidChangeTabFocus s))).
        destruct (setTabFocusMode_each vs _) as [s2 rest].
        cbn [TabFocus._tabFocus TabFocus._onDidChangeTabFocus] in IH |- *.
        destruct IH as (Hlast & Hsubs & n & Hn & ->).
        rewrite default_last_cons. repeat split; try assumption.
        exists (S n). split; [simpl; lia |].
        cbn [alternation flat_map]. by rewrite Hv.
  - induction vs as [| v vs IH]; intros s.
    + simpl. repeat split. exists 0%nat. split; [lia | reflexivity].
    + cbn [setValue_each]. unfold GlobalScreenReaderNVDA.setValue.
      destruct (Bool.eqb (GlobalScreenReaderNVDA._value s) v) eqn:Hv.
      * apply Bool.eqb_prop in Hv. specialize (IH s).
        destruct (setValue_each vs s) as [s2 rest].
        destruct IH as (Hlast & Hsubs & n & Hn & ->).
        rewrite default_last_cons, <- Hv. repeat split; try assumption.
        exists n. split; [simpl; lia | reflexivity].
      * apply eqb_false_negb in Hv. cbv zeta.
        specialize (IH (GlobalScreenReaderNVDA.mk v (GlobalScreenReaderNVDA._onChange s))).
        destruct (setValue_each vs _) as [s2 rest].
        cbn [GlobalScreenReaderNVDA._value GlobalScreenReaderNVDA._onChange] in IH |- *.
        destruct IH as (Hlast & Hsubs & n & Hn & ->).
        rewrite default_last_cons. repeat split; try assumption.
        exists (S n). split; [simpl; lia |].
        cbn [alternation flat_map]. by rewrite Hv.
Qed.

(** X19.  The snapshot [_computeInternalOptions] gives is consistent with
    the host and with itself: its font is the one the host reads for the
    options' font settings and its [lineHeight] is that font's; its class
    name is the host's for the theme and the ligatures flag; and it may
    use translate3d exactly when the host can and [disableTranslate3d]
    does not coerce to true. *)
Theorem computeInternalOptions_follows_host `{External}
    (h : Host.t) (opts : IEditorOptions) (isDominatedByLongLines : bool)
    (lineNumbersDigitCount : Z) (w : World) :
  let o := fst (CommonEditorConfiguration._computeInternalOptions h opts
                  isDominatedByLongLines lineNumbersDigitCount w) in
  InternalEditorOptions.fontInfo o
  = Host.readConfiguration h (BareFontInfo_createFromRawSettings opts) ∧
  InternalEditorOptions.lineHeight o = fontInfo_lineHeight (InternalEditorOptions.fontInfo o) ∧
  InternalEditorViewOptions.editorClassName (InternalEditorOptions.viewInfo o)
  = Host._getEditorClassName h opts.["theme"] (toBoolean opts.["fontLigatures"]) ∧
  (InternalEditorViewOptions.canUseTranslate3d (InternalEditorOptions.viewInfo o) = true
   ↔ Host._getCanUseTranslate3d h = true ∧ toBoolean opts.["disableTranslate3d"] = false).
Proof.
  unfold CommonEditorConfiguration._computeInternalOptions,
    InternalEditorOptionsHelper.createInternalEditorOptions.
  destruct (InternalEditorOptionsHelper.lineNumbersInfo opts) as [[? ?] ?].
  unfold Proc_bind, Proc_ret, TabFocus_getTabFocusMode. cbn [fst]. cbv zeta.
  cbn [InternalEditorOptions.fontInfo InternalEditorOptions.lineHeight
       InternalEditorOptions.viewInfo InternalEditorViewOptions.editorClassName
       InternalEditorViewOptions.canUseTranslate3d].
  repeat split; try reflexivity.
  - by destruct (toBoolean opts.["disableTranslate3d"]).
  - by destruct (toBoolean opts.["disableTranslate3d"]).
  - intros [-> ->]. reflexivity.
Qed.
